(** * The request pipeline of [packages/core/server.ts]

    A shallow embedding of the server-side request handler: the request
    dispatcher with its development-mode re-initialization, the three
    per-kind handlers (data fetch, manifest patch, HTML navigation) and the
    manifest slicer, together with the properties the specification states
    about them.

    Conventions.
    - JavaScript strings are [string]; integers ([httpStatus]) are [Z].
    - A JavaScript object used as a map is a plain object: a [gmap string _]
      of its own properties over [Object.prototype]; a property that holds
      [undefined] is a key bound to [None].  Reading a name looks at the own
      properties first and at [Object.prototype] next.
    - Effects (the cached initialization promise, calls into collaborator
      modules, the render hook) are threaded through a small state monad
      that records every call in a trace.
    - What [server.ts] imports but does not define ([./match], [./loader],
      [./entry], [./build], [./config], [history], [jsesc],
      [URLSearchParams]) is a field of the classes [Platform] and
      [Collaborators], so every property holds for all of their
      implementations. *)

From Stdlib Require Import Ascii String.
From stdpp Require Import gmap strings list fin_maps pretty.

Local Open Scope string_scope.
Local Open Scope list_scope.
Local Open Scope Z_scope.

(** * JavaScript primitives used by the handlers *)

Module Js.

(** The double-quote character, code 34. *)
Definition dquote : ascii := "034"%char.

(** [s.startsWith(searchString)]. *)
Fixpoint startsWith (s searchString : string) {struct searchString} : bool :=
  match searchString with
  | EmptyString => true
  | String a rest =>
      match s with
      | EmptyString => false
      | String b s' => Ascii.eqb b a && startsWith s' rest
      end
  end.

(** The integers JavaScript numbers hold exactly, [Number.isSafeInteger]. *)
Definition isSafeInteger (n : Z) : bool := bool_decide (Z.abs n < 2 ^ 53).

(** [`${n}`] for a number [n] that is a safe integer: its decimal numeral.
    Other numbers (fractions, [NaN], integers JavaScript rounds or prints
    with an exponent) are outside the model. *)
Definition numberToString (n : Z) : string := pretty n.

#[local] Set Warnings "-register-all".

(** JSON values, as far as [JSON.stringify] is applied to literals. *)
Inductive Json :=
  | JNull
  | JBool (b : bool)
  | JNumber (n : Z)
  | JString (s : string)
  | JArray (items : list Json)
  | JObject (fields : list (string * Json)).

Definition hexDigit (n : N) : ascii :=
  if (n <? 10)%N then ascii_of_N (48 + n) else ascii_of_N (87 + n).

(** The escape [JSON.stringify] writes for one character of a string. *)
Definition escapeChar (c : ascii) : string :=
  let n := N_of_ascii c in
  if (n =? 34)%N then String "\" (String dquote EmptyString)
  else if (n =? 92)%N then "\\"
  else if (n =? 8)%N then "\b"
  else if (n =? 12)%N then "\f"
  else if (n =? 10)%N then "\n"
  else if (n =? 13)%N then "\r"
  else if (n =? 9)%N then "\t"
  else if (n <? 32)%N then
    "\u00" +:+ String (hexDigit (n / 16)) (String (hexDigit (n mod 16)) EmptyString)
  else String c EmptyString.

Fixpoint escapeString (s : string) : string :=
  match s with
  | EmptyString => EmptyString
  | String c s' => escapeChar c +:+ escapeString s'
  end.

Definition quoteString (s : string) : string :=
  String dquote (escapeString s +:+ String dquote EmptyString).

(** [JSON.stringify(v)] without indentation. *)
Fixpoint JSON_stringify (v : Json) : string :=
  match v with
  | JNull => "null"
  | JBool true => "true"
  | JBool false => "false"
  | JNumber n => numberToString n
  | JString s => quoteString s
  | JArray items =>
      "[" +:+ String.concat "," (map JSON_stringify items) +:+ "]"
  | JObject fields =>
      "{" +:+ String.concat ","
                (map (fun kv => quoteString (fst kv) +:+ ":" +:+ JSON_stringify (snd kv))
                     fields) +:+ "}"
  end.

End Js.

(** * The manifest slicer *)

(** The names every plain object inherits from [Object.prototype]: eleven
    functions and the accessor [__proto__]. *)
Definition objectPrototypeNames : list string :=
  [ "constructor"; "__defineGetter__"; "__defineSetter__"; "hasOwnProperty";
    "__lookupGetter__"; "__lookupSetter__"; "isPrototypeOf";
    "propertyIsEnumerable"; "toString"; "valueOf"; "toLocaleString";
    "__proto__" ].

(** [inherited name], for a name of [Object.prototype], is the value a plain
    object without such an own property gives when the name is read: the
    function [Object.prototype[name]], or [Object.prototype] itself for
    [__proto__].  The code types it like the values of the object. *)
Class Inherited (A : Type) := inherited : string -> A.

Section Manifest.

(** A value of a manifest: the bundle metadata of one entry, opaque to the
    server, or whatever else the code stores in its place. *)
Context {Entry : Type} `{Inherited Entry}.

(** A [BuildManifest] maps entry names to bundle metadata.  A key bound to
    [None] is an own property whose value is [undefined]. *)
Local Abbreviation BuildManifest := (gmap string (option Entry)).

(** What a plain object without an own property [name] gives for it. *)
Definition inheritedProperty {A} `{Inherited A} (name : string) : option A :=
  if bool_decide (name ∈ objectPrototypeNames) then Some (inherited name) else None.

(** [manifest[entryName]]: the value of the own property; without one, the
    value inherited from [Object.prototype]; [undefined] when there is
    neither. *)
Definition getProperty (manifest : BuildManifest) (entryName : string) : option Entry :=
  match manifest !! entryName with
  | Some value => value
  | None => inheritedProperty entryName
  end.

(** [memo[entryName] = value] on a plain object.  For [__proto__] the
    setter of [Object.prototype] runs and [memo] gets no own property (the
    setter can only replace the prototype of [memo], and only by an object
    or [null]; the model keeps the prototype fixed, so it is exact for
    manifests without an own [__proto__]).  Every other name becomes or
    stays an own property: the functions of [Object.prototype] are
    writable. *)
Definition setProperty (memo : BuildManifest) (entryName : string) (value : option Entry)
  : BuildManifest :=
  if bool_decide (entryName = "__proto__") then memo else <[entryName := value]> memo.

(** [getPartialManifest]: the [reduce] over [entryNames], starting from the
    empty object, that copies [manifest[entryName]] to [memo[entryName]]. *)
Definition getPartialManifest (manifest : BuildManifest) (entryNames : list string)
  : BuildManifest :=
  foldl (fun memo entryName => setProperty memo entryName (getProperty manifest entryName))
        ∅ entryNames.

(** ** The slicer on a store of objects

    The same function with the objects it touches made explicit: the
    manifest is a reference into a store, [{}] allocates a fresh object and
    every step of the [reduce] writes one property of that object. *)

Definition loc := positive.
Local Abbreviation Store := (gmap loc (gmap string (option Entry))).

(** [σ[l][k]] *)
Definition readProperty (σ : Store) (l : loc) (k : string) : option Entry :=
  match σ !! l with
  | Some o => getProperty o k
  | None => None
  end.

(** [σ[l][k] = v] *)
Definition writeProperty (l : loc) (k : string) (v : option Entry) (σ : Store) : Store :=
  alter (fun o => setProperty o k v) l σ.

Definition getPartialManifest_store (manifest : loc) (entryNames : list string) (σ : Store)
  : loc * Store :=
  let memo := fresh (dom σ) in
  (memo,
   foldl (fun σ' entryName =>
            writeProperty memo entryName (readProperty σ' manifest entryName) σ')
         (<[memo := ∅]> σ) entryNames).

End Manifest.

(** * Data model *)

(** The types [server.ts] imports and never looks into. *)
Class Platform := {
  (** [Request] of [./platform]; only its [url] is read. *)
  Request : Type;
  url : Request -> string;
  (** [AppLoadContext] of [./loader]. *)
  AppLoadContext : Type;
  (** [Location["state"]] of [history]. *)
  HistoryState : Type;
  (** The route tree [config.routes]. *)
  RouteTree : Type;
  (** A value of a [BuildManifest]: the bundle metadata of one entry. *)
  Entry : Type;
  inheritedEntry : Inherited Entry;
  (** A value of [RouteModules]: a compiled route module. *)
  RouteModule : Type;
  inheritedModule : Inherited RouteModule;
  (** The payload of a successful loader and the value of a failed one. *)
  LoaderData : Type;
  LoaderError : Type;
  (** The results of [createRouteData], [createRouteManifest],
      [createRouteParams] and [createRouteDataResults] of [./entry]. *)
  RouteData : Type;
  RouteManifest : Type;
  RouteParams : Type;
  RouteDataResults : Type
}.

#[global] Existing Instances inheritedEntry inheritedModule.

(** What [parsePath] of [history] returns: every part is optional. *)
Record PartialPath := {
  partial_pathname : option string;
  partial_search : option string;
  partial_hash : option string
}.

(** The route of a match, with the four properties [server.ts] writes. *)
Record RouteDefinition := {
  route_path : string;
  route_id : string;
  route_component : string;
  route_loader : option string
}.

Record RouteMatch := {
  match_pathname : string;
  match_params : gmap string string;
  match_route : RouteDefinition
}.

(** Modelled from the spec: the [Response] class of [./platform] is not part
    of [server.ts]; a response is the body, status and headers its
    constructor is given ([status] is [None] when the handler passes none,
    and [headers] lists exactly the headers the handler specifies). *)
Record Response := {
  body : string;
  status : option Z;
  headers : list (string * string)
}.

(** The value of a header among those the handler specified. *)
Fixpoint specifiedHeader (name : string) (headers : list (string * string))
  : option string :=
  match headers with
  | [] => None
  | (name', value) :: rest =>
      if String.eqb name' name then Some value else specifiedHeader name rest
  end.

(** Modelled from the spec: what the [Response] class of [./platform], which
    is not part of [server.ts], makes of the arguments of its constructor.
    By the table of section 6 a response built without a status has status
    200, and a response built from a string without a content type is
    [text/plain]. *)
Definition responseStatus (response : Response) : Z :=
  default 200 (status response).

Definition responseContentType (response : Response) : string :=
  default "text/plain" (specifiedHeader "Content-Type" (headers response)).

(** The three kinds of request the dispatcher tells apart. *)
Inductive RequestKind := DataFetch | ManifestPatch | HtmlNavigation.

(** A loader that ran: the id of its route and the loader's identity. *)
Definition LoaderInvocation : Type := string * string.

Section DataModel.
Context {P : Platform}.

Record Location := {
  pathname : string;
  search : string;
  hash : string;
  state : option HistoryState;
  key : string
}.

(** Modelled from the spec: the [LoaderResult] classes of [./loader] are not
    part of [server.ts]; section 3 gives a closed variant of four cases, and
    [server.ts] reads [location] and [httpStatus] of them. *)
Inductive LoaderResult :=
  | LoaderResultSuccess (data : LoaderData)
  | LoaderResultRedirect (location : string) (httpStatus : Z)
  | LoaderResultError (error : LoaderError) (httpStatus : Z)
  | LoaderResultChangeStatusCode (httpStatus : Z).

Record RemixConfig := {
  rootDirectory : string;
  serverBuildDirectory : string;
  publicPath : string;
  routes : RouteTree
}.

(** [load()] of the route loader only ever throws. *)
Inductive Thrown := Throw (message : string).

Record RouteLoader := {
  read : string -> option RouteModule;
  load : unit -> Thrown
}.

Record PartialEntryContext := {
  partial_browserManifest : gmap string (option Entry);
  partial_matchedRouteIds : list string;
  partial_publicPath : string;
  partial_routeManifest : RouteManifest;
  partial_routeData : RouteData;
  partial_routeParams : RouteParams
}.

Record EntryContext := {
  entry_browserManifest : gmap string (option Entry);
  entry_matchedRouteIds : list string;
  entry_publicPath : string;
  entry_routeManifest : RouteManifest;
  entry_routeData : RouteData;
  entry_routeParams : RouteParams;
  browserEntryContextString : string;
  routeLoader : RouteLoader
}.

(** The server entry module; [render] is its default export, the render hook. *)
Record ServerEntryModule := {
  render : Request -> Z -> EntryContext -> Response
}.

Record RemixServerInit := {
  config : RemixConfig;
  browserManifest : gmap string (option Entry);
  routeModules : gmap string RouteModule;
  serverEntryModule : ServerEntryModule
}.

(** The payload of a manifest-patch response. *)
Record PatchPayload := {
  build : gmap string (option Entry);
  patch_routes : RouteManifest
}.

(** ** The cached initialization

    [initializeServer] returns a promise.  A promise is identified by the
    call that created it: [generation] counts the calls, [root] is the
    argument of the call. *)
Record InitPromise := {
  generation : nat;
  root : option string
}.

(** Calls the handler makes, in the order it makes them. *)
Inductive Event :=
  | EvInitializeServer (p : InitPromise)
  | EvAwaitInit (p : InitPromise)
  | EvPurgeRequireCache (directory : string)
  | EvMatchRoutes (path : string)
  | EvLoadData (matches : list RouteMatch)
  | EvLoadDataDiff (matches fromMatches : list RouteMatch)
  | EvInvokeLoader (invocation : LoaderInvocation)
  | EvGetPartialManifest (entryNames : list string)
  | EvRender (statusCode : Z) (entryContext : EntryContext).

Definition isInitEvent (e : Event) : bool :=
  match e with
  | EvInitializeServer _ | EvAwaitInit _ | EvPurgeRequireCache _ => true
  | _ => false
  end.

Definition isMatchRoutes (e : Event) : bool :=
  match e with EvMatchRoutes _ => true | _ => false end.

Definition isLoaderEvent (e : Event) : bool :=
  match e with
  | EvLoadData _ | EvLoadDataDiff _ _ | EvInvokeLoader _ => true
  | _ => false
  end.

Definition isLoadDataDiff (e : Event) : bool :=
  match e with EvLoadDataDiff _ _ => true | _ => false end.

Definition isGetPartialManifest (e : Event) : bool :=
  match e with EvGetPartialManifest _ => true | _ => false end.

Definition isRender (e : Event) : bool :=
  match e with EvRender _ _ => true | _ => false end.

Definition isRedirect (result : LoaderResult) : bool :=
  match result with LoaderResultRedirect _ _ => true | _ => false end.

Definition isError (result : LoaderResult) : bool :=
  match result with LoaderResultError _ _ => true | _ => false end.

Definition isChangeStatusCode (result : LoaderResult) : bool :=
  match result with LoaderResultChangeStatusCode _ => true | _ => false end.

(** The state one handler created by [createRequestHandler] runs in: the
    closure variable [initPromise], the number of initializations started so
    far, and the trace of the request being handled. *)
Record ServerState := {
  initPromise : InitPromise;
  promisesCreated : nat;
  trace : list Event
}.

End DataModel.

(** * Collaborators

    Everything [server.ts] calls but does not define.  The functions of
    [./config] and [./build] read the disk and the module cache, so they are
    indexed by the generation of the initialization that calls them. *)
Class Collaborators (P : Platform) := {
  (** [process.env.NODE_ENV] *)
  NODE_ENV : option string;
  (** [parsePath] of [history] *)
  parsePath : string -> PartialPath;
  (** [new URLSearchParams(search).get(name)] *)
  searchParamsGet : string -> string -> option string;
  (** [./config] and [./build] *)
  readConfig : nat -> option string -> RemixConfig;
  getBrowserManifest : nat -> string -> gmap string (option Entry);
  getServerManifest : nat -> string -> gmap string (option Entry);
  getServerEntryModule : nat -> string -> gmap string (option Entry) -> ServerEntryModule;
  getRouteModules :
    nat -> string -> RouteTree -> gmap string (option Entry) -> gmap string RouteModule;
  (** [./match] *)
  matchRoutes : RouteTree -> string -> option (list RouteMatch);
  (** [./loader]: the loaders that were invoked and the result list.  The
      diff strategy may leave a route out, hence the optional results. *)
  loadData :
    RemixConfig -> list RouteMatch -> Location -> AppLoadContext ->
    list LoaderInvocation * list LoaderResult;
  loadDataDiff :
    RemixConfig -> list RouteMatch -> list RouteMatch -> Location -> AppLoadContext ->
    list LoaderInvocation * list (option LoaderResult);
  (** [./entry] *)
  createRouteData : list LoaderResult -> RouteData;
  createRouteDataResults : list (option LoaderResult) -> RouteDataResults;
  createRouteManifest : list RouteMatch -> RouteManifest;
  createRouteParams : list RouteMatch -> RouteParams;
  (** [jsesc(value, { isScriptContext: true })] *)
  jsesc : PartialEntryContext -> string;
  (** [JSON.stringify] of data the server does not build itself *)
  stringifyDataResults : RouteDataResults -> string;
  stringifyPatchPayload : PatchPayload -> string;
  (** What the requests that run while this one is suspended do to the
      cached promise and to the count of initializations. *)
  otherRequests : InitPromise * nat -> InitPromise * nat
}.

(** * The server *)

Section Server.
Context {P : Platform} {C : Collaborators P}.

(** ** The handler monad *)

Definition M (A : Type) : Type := ServerState -> A * ServerState.

Definition ret {A} (a : A) : M A := fun s => (a, s).

Definition bind {A B} (c : M A) (k : A -> M B) : M B :=
  fun s => let '(a, s') := c s in k a s'.

Notation "'let*' x ':=' c 'in' k" := (bind c (fun x => k))
  (at level 10, x name, c at level 100, k at level 200).
Notation "c '>>' k" := (bind c (fun _ => k))
  (at level 100, k at level 200, right associativity).

(** The state with more calls recorded in the trace. *)
Definition logged (events : list Event) (s : ServerState) : ServerState :=
  {| initPromise := initPromise s;
     promisesCreated := promisesCreated s;
     trace := trace s ++ events |}.

(** The state a suspended request finds when it resumes: other requests
    have run, the trace of this one is as it was. *)
Definition resumed (s : ServerState) : ServerState :=
  let '(p, n) := otherRequests (initPromise s, promisesCreated s) in
  {| initPromise := p; promisesCreated := n; trace := trace s |}.

(** Record a call in the trace. *)
Definition emit (e : Event) : M unit := fun s => (tt, logged [e] s).

Definition emitAll (events : list Event) : M unit := fun s => (tt, logged events s).

(** A suspension point: other requests run before this one resumes. *)
Definition suspend : M unit := fun s => (tt, resumed s).

(** [yields c s a events]: run from [s], the computation [c] returns [a]
    and records exactly [events]. *)
Definition yields {A} (c : M A) (s : ServerState) (a : A) (events : list Event) : Prop :=
  exists s', c s = (a, s') /\ trace s' = trace s ++ events.

(** Read and assign the closure variable [initPromise]. *)
Definition getInitPromise : M InitPromise := fun s => (initPromise s, s).

Definition setInitPromise (p : InitPromise) : M unit :=
  fun s => (tt, {| initPromise := p;
                   promisesCreated := promisesCreated s;
                   trace := trace s |}).

(** ** [createLocation] *)

Definition createLocation (url : string) (state : option HistoryState) (key : string)
  : Location :=
  let p := parsePath url in
  {| pathname := default "/" (partial_pathname p);
     search := default EmptyString (partial_search p);
     hash := default EmptyString (partial_hash p);
     state := state;
     key := key |}.

(** ** [initializeServer] *)

(** The body of [initializeServer], run by the call of generation [g]. *)
Definition initializeServerBody (g : nat) (remixRoot : option string) : RemixServerInit :=
  let config := readConfig g remixRoot in
  let browserManifest := getBrowserManifest g (serverBuildDirectory config) in
  let serverManifest := getServerManifest g (serverBuildDirectory config) in
  let serverEntryModule :=
    getServerEntryModule g (serverBuildDirectory config) serverManifest in
  let routeModules :=
    getRouteModules g (serverBuildDirectory config) (routes config) serverManifest in
  {| config := config;
     browserManifest := browserManifest;
     routeModules := routeModules;
     serverEntryModule := serverEntryModule |}.

(** What a promise resolves to. *)
Definition resolved (p : InitPromise) : RemixServerInit :=
  initializeServerBody (generation p) (root p).

(** Calling [initializeServer(remixRoot)] starts an initialization and
    returns its promise without waiting for it. *)
Definition initializeServer (remixRoot : option string) : M InitPromise :=
  fun s =>
    let p := {| generation := promisesCreated s; root := remixRoot |} in
    (p, {| initPromise := initPromise s;
           promisesCreated := S (promisesCreated s);
           trace := trace s ++ [EvInitializeServer p] |}).

(** The promise a request in development mode starts, when it finds the
    state [s] on entry: the first [await] lets other requests run, then
    the next generation is started. *)
Definition startedBy (remixRoot : option string) (s : ServerState) : InitPromise :=
  {| generation := promisesCreated (resumed s); root := remixRoot |}.

(** [await p] for an initialization promise. *)
Definition awaitInit (p : InitPromise) : M RemixServerInit :=
  suspend >> emit (EvAwaitInit p) >> ret (resolved p).

(** ** Calls into the collaborators, recorded in the trace *)

Definition purgeRequireCache (directory : string) : M unit :=
  emit (EvPurgeRequireCache directory).

Definition callMatchRoutes (routes : RouteTree) (path : string)
  : M (option (list RouteMatch)) :=
  emit (EvMatchRoutes path) >> ret (matchRoutes routes path).

(** [await loadData(config, matches, location, context)] *)
Definition awaitLoadData (config : RemixConfig) (matches : list RouteMatch)
    (location : Location) (context : AppLoadContext) : M (list LoaderResult) :=
  let '(invoked, results) := loadData config matches location context in
  emit (EvLoadData matches) >>
  emitAll (EvInvokeLoader <$> invoked) >>
  suspend >>
  ret results.

(** [await loadDataDiff(config, matches, fromMatches, location, context)] *)
Definition awaitLoadDataDiff (config : RemixConfig) (matches fromMatches : list RouteMatch)
    (location : Location) (context : AppLoadContext) : M (list (option LoaderResult)) :=
  let '(invoked, results) := loadDataDiff config matches fromMatches location context in
  emit (EvLoadDataDiff matches fromMatches) >>
  emitAll (EvInvokeLoader <$> invoked) >>
  suspend >>
  ret results.

Definition callGetPartialManifest (manifest : gmap string (option Entry))
    (entryNames : list string) : M (gmap string (option Entry)) :=
  emit (EvGetPartialManifest entryNames) >>
  ret (getPartialManifest manifest entryNames).

Definition callRender (serverEntryModule : ServerEntryModule) (req : Request)
    (statusCode : Z) (entryContext : EntryContext) : M Response :=
  emit (EvRender statusCode entryContext) >>
  ret (render serverEntryModule req statusCode entryContext).

(** ** [handleDataRequest] *)

Definition handleDataRequest (init : RemixServerInit) (req : Request)
    (context : AppLoadContext) : M Response :=
  let config := config init in
  let location := createLocation (url req) None "default" in
  let path := searchParamsGet (search location) "path" in
  let from := searchParamsGet (search location) "from" in
  match path with
  | None | Some EmptyString =>
      (* [!path]: [null] or the empty string *)
      ret {| body := Js.JSON_stringify (Js.JObject [("error", Js.JString "Missing ?path")]);
             status := Some 403;
             headers := [("Content-Type", "application/json")] |}
  | Some path =>
      let* matches := callMatchRoutes (routes config) path in
      match matches with
      | None =>
          ret {| body := Js.JSON_stringify
                           (Js.JObject [("error", Js.JString "No routes matched")]);
                 status := Some 404;
                 headers := [("Content-Type", "application/json")] |}
      | Some matches =>
          let* loaderResults :=
            match from with
            | Some (String _ _ as from) =>
                (* [from] is truthy *)
                let* found := callMatchRoutes (routes config) from in
                let fromMatches := default [] found in
                awaitLoadDataDiff config matches fromMatches location context
            | _ =>
                let* results := awaitLoadData config matches location context in
                ret (Some <$> results)
            end in
          let dataResults := createRouteDataResults loaderResults in
          ret {| body := stringifyDataResults dataResults;
                 status := None;
                 headers := [("Content-Type", "application/json")] |}
      end
  end.

(** ** [handlePatchRequest] *)

Definition handlePatchRequest (init : RemixServerInit) (req : Request) : M Response :=
  let config := config init in
  let browserManifest := browserManifest init in
  let location := createLocation (url req) None "default" in
  let path := searchParamsGet (search location) "path" in
  match path with
  | None | Some EmptyString =>
      ret {| body := Js.JSON_stringify (Js.JObject [("error", Js.JString "Missing ?path")]);
             status := Some 403;
             headers := [("Content-Type", "application/json")] |}
  | Some path =>
      let* matches := callMatchRoutes (routes config) path in
      match matches with
      | None =>
          ret {| body := "No matches found for " +:+ path;
                 status := Some 404;
                 headers := [] |}
      | Some matches =>
          let matchedRouteIds := (fun m => route_id (match_route m)) <$> matches in
          let routeManifest := createRouteManifest matches in
          let* partialBrowserManifest :=
            callGetPartialManifest browserManifest matchedRouteIds in
          let payload := {| build := partialBrowserManifest;
                            patch_routes := routeManifest |} in
          ret {| body := stringifyPatchPayload payload;
                 status := None;
                 headers := [("Content-Type", "application/json")] |}
      end
  end.

(** ** [handleHtmlRequest] *)

(** [find] with a type guard: the first result of each class. *)
Fixpoint findRedirect (results : list LoaderResult) : option (string * Z) :=
  match results with
  | [] => None
  | LoaderResultRedirect location httpStatus :: _ => Some (location, httpStatus)
  | _ :: rest => findRedirect rest
  end.

Fixpoint findError (results : list LoaderResult) : option (LoaderError * Z) :=
  match results with
  | [] => None
  | LoaderResultError error httpStatus :: _ => Some (error, httpStatus)
  | _ :: rest => findError rest
  end.

Fixpoint findChangeStatusCode (results : list LoaderResult) : option Z :=
  match results with
  | [] => None
  | LoaderResultChangeStatusCode httpStatus :: _ => Some httpStatus
  | _ :: rest => findChangeStatusCode rest
  end.

(** The match list an HTML request falls back to: one match for a
    pseudo-route with the given id and component, without params and
    without a loader. *)
Definition syntheticMatch (pathname id component : string) : RouteMatch :=
  {| match_pathname := pathname;
     match_params := ∅;
     match_route := {| route_path := "*";
                       route_id := id;
                       route_component := component;
                       route_loader := None |} |}.

(** The entry context built from the final match list and the loader
    results (from [matchedRouteIds] to [entryContext]), given the sliced
    manifest. *)
Definition createEntryContext (init : RemixServerInit) (matches : list RouteMatch)
    (loaderResults : list LoaderResult)
    (partialBrowserManifest : gmap string (option Entry)) : EntryContext :=
  let matchedRouteIds := (fun m => route_id (match_route m)) <$> matches in
  let routeData := createRouteData loaderResults in
  let routeManifest := createRouteManifest matches in
  let routeParams := createRouteParams matches in
  let partialEntryContext :=
    {| partial_browserManifest := partialBrowserManifest;
       partial_matchedRouteIds := matchedRouteIds;
       partial_publicPath := publicPath (config init);
       partial_routeManifest := routeManifest;
       partial_routeData := routeData;
       partial_routeParams := routeParams |} in
  {| entry_browserManifest := partialBrowserManifest;
     entry_matchedRouteIds := matchedRouteIds;
     entry_publicPath := publicPath (config init);
     entry_routeManifest := routeManifest;
     entry_routeData := routeData;
     entry_routeParams := routeParams;
     browserEntryContextString := jsesc partialEntryContext;
     routeLoader :=
       {| read := fun routeId =>
            match routeModules init !! routeId with
            | Some routeModule => Some routeModule
            | None => inheritedProperty routeId
            end;
          load := fun _ =>
            Throw "Cannot load routes on the server because we can't suspend" |} |}.

(** The part of [handleHtmlRequest] after the branches: with the final
    [statusCode], [matches] and [loaderResults], slice the manifest, build
    the entry context and call the render hook. *)
Definition renderHtml (init : RemixServerInit) (req : Request) (statusCode : Z)
    (matches : list RouteMatch) (loaderResults : list LoaderResult) : M Response :=
  let matchedRouteIds := (fun m => route_id (match_route m)) <$> matches in
  let* partialBrowserManifest :=
    callGetPartialManifest (browserManifest init)
                           (["__entry_browser__"] ++ matchedRouteIds) in
  let entryContext :=
    createEntryContext init matches loaderResults partialBrowserManifest in
  callRender (serverEntryModule init) req statusCode entryContext.

Definition handleHtmlRequest (init : RemixServerInit) (req : Request)
    (context : AppLoadContext) : M Response :=
  let config := config init in
  let location := createLocation (url req) None "default" in
  let* matches := callMatchRoutes (routes config) (url req) in
  match matches with
  | None =>
      renderHtml init req 404
        [syntheticMatch (pathname location) "routes/404" "routes/404.js"]
        []
  | Some matches =>
      let* loaderResults := awaitLoadData config matches location context in
      match findRedirect loaderResults with
      | Some (redirectLocation, redirectStatus) =>
          ret {| body := "Redirecting to " +:+ redirectLocation;
                 status := Some redirectStatus;
                 headers := [("Location", redirectLocation)] |}
      | None =>
          match findError loaderResults with
          | Some (_, errorStatus) =>
              renderHtml init req errorStatus
                [syntheticMatch (pathname location) "routes/500" "routes/500.js"]
                loaderResults
          | None =>
              match findChangeStatusCode loaderResults with
              | Some changedStatus =>
                  renderHtml init req changedStatus
                    [syntheticMatch (pathname location)
                       ("routes/" +:+ Js.numberToString changedStatus)
                       ("routes/" +:+ Js.numberToString changedStatus +:+ ".js")]
                    loaderResults
              | None => renderHtml init req 200 matches loaderResults
              end
          end
      end
  end.

(** ** [createRequestHandler] *)

(** [process.env.NODE_ENV === "development"] *)
Definition development : bool := bool_decide (NODE_ENV = Some "development").

(** The kind of a request, by the prefix of its URL. *)
Definition requestKind (req : Request) : RequestKind :=
  if Js.startsWith (url req) "/__remix_data" then DataFetch
  else if Js.startsWith (url req) "/__remix_patch" then ManifestPatch
  else HtmlNavigation.

(** The body of the response to a request without [path]. *)
Definition missingPathBody : string :=
  "{" +:+ String Js.dquote "error" +:+ String Js.dquote ":"
      +:+ String Js.dquote "Missing ?path" +:+ String Js.dquote "}".

(** The body of the response to a data-fetch request whose [path] matches
    no route. *)
Definition noRoutesMatchedBody : string :=
  "{" +:+ String Js.dquote "error" +:+ String Js.dquote ":"
      +:+ String Js.dquote "No routes matched" +:+ String Js.dquote "}".

(** The ids of the routes of a match list, [matches.map(match => match.route.id)]. *)
Definition routeIds (matches : list RouteMatch) : list string :=
  (fun m => route_id (match_route m)) <$> matches.

(** The dispatch on the prefix of the URL. *)
Definition dispatch (init : RemixServerInit) (req : Request)
    (loadContext : AppLoadContext) : M Response :=
  if Js.startsWith (url req) "/__remix_data" then handleDataRequest init req loadContext
  else if Js.startsWith (url req) "/__remix_patch" then handlePatchRequest init req
  else handleHtmlRequest init req loadContext.

(** The handler [createRequestHandler] returns. *)
Definition requestHandler (remixRoot : option string) (req : Request)
    (loadContext : AppLoadContext) : M Response :=
  (if development then
     let* cached := getInitPromise in
     let* awaited := awaitInit cached in
     purgeRequireCache (rootDirectory (config awaited)) >>
     let* started := initializeServer remixRoot in
     setInitPromise started
   else ret tt) >>
  let* current := getInitPromise in
  let* init := awaitInit current in
  dispatch init req loadContext.

(** [createRequestHandler(remixRoot)]: the first initialization is started,
    its promise cached, and the handler returned. *)
Definition createRequestHandler (remixRoot : option string)
  : ServerState * (Request -> AppLoadContext -> M Response) :=
  let p := {| generation := 0; root := remixRoot |} in
  ({| initPromise := p; promisesCreated := 1; trace := [EvInitializeServer p] |},
   requestHandler remixRoot).

End Server.

(** * The modules the specification describes but [server.ts] only imports *)

Section SpecModels.
Context {P : Platform}.

(** Running one loader: its identity, the location, the params of the match
    and the load context give a result; a failure is an [Error] result. *)
Variable runLoader : string -> Location -> gmap string string -> AppLoadContext -> LoaderResult.

(** The payload [null]. *)
Variable nullData : LoaderData.

(** The loader a match invokes, if its route has one. *)
Definition invocationsOf (m : RouteMatch) : list LoaderInvocation :=
  match route_loader (match_route m) with
  | Some loader => [(route_id (match_route m), loader)]
  | None => []
  end.

(** The result for one match: the loader's result, or [Success(null)] for a
    route without a loader. *)
Definition loadRoute (location : Location) (context : AppLoadContext) (m : RouteMatch)
  : LoaderResult :=
  match route_loader (match_route m) with
  | Some loader => runLoader loader location (match_params m) context
  | None => LoaderResultSuccess nullData
  end.

(** Modelled from the spec: [loadData] of [./loader] is not part of
    [server.ts]; section 4.3, full load: every match with a loader has it
    invoked, and the result list is index-aligned with the match list. *)
Definition loadData_spec (config : RemixConfig) (matches : list RouteMatch)
    (location : Location) (context : AppLoadContext)
  : list LoaderInvocation * list LoaderResult :=
  (mjoin (invocationsOf <$> matches), loadRoute location context <$> matches).

(** A route is unchanged when the previous match list has, at the same
    position, a match with the same route id and the same loader. *)
Definition unchangedAt (fromMatches : list RouteMatch) (i : nat) (m : RouteMatch) : bool :=
  match fromMatches !! i with
  | Some m' =>
      bool_decide (route_id (match_route m') = route_id (match_route m)
                   /\ route_loader (match_route m') = route_loader (match_route m))
  | None => false
  end.

(** Modelled from the spec: [loadDataDiff] of [./loader] is not part of
    [server.ts]; section 4.3, diff load: only the routes not found at the
    same position of the previous match list are invoked, the others yield
    the sentinel for unchanged data ([None]). *)
Definition loadDataDiff_spec (config : RemixConfig) (matches fromMatches : list RouteMatch)
    (location : Location) (context : AppLoadContext)
  : list LoaderInvocation * list (option LoaderResult) :=
  (mjoin (imap (fun i m => if unchangedAt fromMatches i m then [] else invocationsOf m)
               matches),
   imap (fun i m => if unchangedAt fromMatches i m then None
                    else Some (loadRoute location context m))
        matches).

(** The payload of a successful result. *)
Definition successData (result : LoaderResult) : option LoaderData :=
  match result with
  | LoaderResultSuccess data => Some data
  | _ => None
  end.

(** Modelled from the spec: [createRouteData] of [./entry] is not part of
    [server.ts]; section 4.5 step 7 makes the route data the union of all
    per-route results, so every successful result contributes its payload,
    in route order. *)
Definition createRouteData_spec (results : list LoaderResult) : list (option LoaderData) :=
  successData <$> results.

End SpecModels.

(** * A small application, for concrete runs

    Requests are their URLs; payloads, errors and manifest entries are
    strings.  The route table lists every route with its full path, and a
    path matches the routes whose path is a prefix of it, provided one of
    them is the path itself. *)

(** [parsePath] as [history] 5 defines it. *)
Fixpoint splitAtChar (c : ascii) (s : string) : option (string * string) :=
  match s with
  | EmptyString => None
  | String a rest =>
      if Ascii.eqb a c then Some (EmptyString, s)
      else match splitAtChar c rest with
           | Some (before, from) => Some (String a before, from)
           | None => None
           end
  end.

Definition demoParsePath (path : string) : PartialPath :=
  let '(path, hash) :=
    match splitAtChar "#" path with
    | Some (before, from) => (before, Some from)
    | None => (path, None)
    end in
  let '(path, search) :=
    match splitAtChar "?" path with
    | Some (before, from) => (before, Some from)
    | None => (path, None)
    end in
  {| partial_pathname := match path with EmptyString => None | _ => Some path end;
     partial_search := search;
     partial_hash := hash |}.

(** [URLSearchParams.get] on queries that need no percent-decoding. *)
Fixpoint splitOn (c : ascii) (s : string) : list string :=
  match s with
  | EmptyString => [EmptyString]
  | String a rest =>
      if Ascii.eqb a c then EmptyString :: splitOn c rest
      else match splitOn c rest with
           | piece :: pieces => String a piece :: pieces
           | [] => [String a EmptyString]
           end
  end.

Definition parsePair (piece : string) : string * string :=
  match splitAtChar "=" piece with
  | Some (name, String _ value) => (name, value)
  | Some (name, EmptyString) => (name, EmptyString)
  | None => (piece, EmptyString)
  end.

Definition demoSearchParamsGet (search name : string) : option string :=
  let query := match search with String "?" rest => rest | _ => search end in
  let pieces := List.filter (fun piece => negb (String.eqb piece EmptyString))
                            (splitOn "&" query) in
  snd <$> List.find (fun pair => String.eqb (fst pair) name) (parsePair <$> pieces).

(** The functions of [Object.prototype], as the strings they print as. *)
#[global] Instance demoInherited : Inherited string :=
  fun name => "function " +:+ name.

Definition demoPlatform : Platform :=
  {| Request := string;
     url := fun req => req;
     AppLoadContext := unit;
     HistoryState := unit;
     RouteTree := list RouteDefinition;
     Entry := string;
     inheritedEntry := demoInherited;
     RouteModule := string;
     inheritedModule := demoInherited;
     LoaderData := string;
     LoaderError := string;
     RouteData := list (option string);
     RouteManifest := list RouteDefinition;
     RouteParams := list (string * gmap string string);
     RouteDataResults := list string |}.

Definition demoRoute (path : string) (loader : option string) : RouteDefinition :=
  {| route_path := path;
     route_id := "routes" +:+ path;
     route_component := "routes" +:+ path +:+ ".js";
     route_loader := loader |}.

Definition demoRoutes : list RouteDefinition :=
  [ demoRoute "/gists" (Some "loaders/gists.js");
    demoRoute "/gists/123" (Some "loaders/gist.js");
    demoRoute "/gists/private" (Some "loaders/private.js");
    demoRoute "/gists/broken" (Some "loaders/broken.js");
    demoRoute "/admin" (Some "loaders/admin.js");
    demoRoute "/admin/broken" (Some "loaders/broken.js");
    demoRoute "/about" None ].

Definition demoMatch (route : RouteDefinition) : RouteMatch :=
  {| match_pathname := route_path route; match_params := ∅; match_route := route |}.

Definition demoMatchRoutes (tree : list RouteDefinition) (path : string)
  : option (list RouteMatch) :=
  let found := List.filter (fun r => Js.startsWith path (route_path r)) tree in
  if existsb (fun r => String.eqb (route_path r) path) found
  then Some (demoMatch <$> found)
  else None.

Definition demoRunLoader (loader : string) (location : Location (P := demoPlatform))
    (params : gmap string string) (context : unit) : LoaderResult (P := demoPlatform) :=
  if String.eqb loader "loaders/private.js"
  then LoaderResultRedirect (P := demoPlatform) "/login" 302
  else if String.eqb loader "loaders/broken.js"
  then LoaderResultError (P := demoPlatform) "boom" 500
  else if String.eqb loader "loaders/admin.js"
  then LoaderResultChangeStatusCode (P := demoPlatform) 201
  else LoaderResultSuccess (P := demoPlatform) ("data of " +:+ loader).

Definition demoSummary (result : option (LoaderResult (P := demoPlatform))) : string :=
  match result with
  | None => "unchanged"
  | Some (LoaderResultSuccess data) => data
  | Some (LoaderResultRedirect location _) => "redirect " +:+ location
  | Some (LoaderResultError error _) => "error " +:+ error
  | Some (LoaderResultChangeStatusCode httpStatus) => "status " +:+ pretty httpStatus
  end.

(** The render hook of the build of generation [g]. *)
Definition demoRender (g : nat) : ServerEntryModule (P := demoPlatform) :=
  {| render := fun req statusCode entryContext =>
       {| body := "build " +:+ pretty g +:+ ": "
                  +:+ String.concat "," (entry_matchedRouteIds entryContext);
          status := Some statusCode;
          headers := [("Content-Type", "text/html")] |} |}.

Definition demoManifest : gmap string (option string) :=
  list_to_map [ ("__entry_browser__", Some "entry-browser.js");
                ("routes/gists", Some "gists.js");
                ("routes/about", Some "about.js") ].

(** The application, run with the given [NODE_ENV]; no other request runs
    concurrently. *)
Definition demo (nodeEnv : option string) : Collaborators demoPlatform :=
  {| NODE_ENV := nodeEnv;
     parsePath := demoParsePath;
     searchParamsGet := demoSearchParamsGet;
     readConfig := fun g remixRoot =>
       {| rootDirectory := default "/app" remixRoot;
          serverBuildDirectory := "/app/build";
          publicPath := "/build/";
          routes := demoRoutes : RouteTree (Platform := demoPlatform) |};
     getBrowserManifest := fun g directory => demoManifest;
     getServerManifest := fun g directory => demoManifest;
     getServerEntryModule := fun g directory manifest => demoRender g;
     getRouteModules := fun g directory routes manifest => ∅;
     matchRoutes := demoMatchRoutes;
     loadData := loadData_spec demoRunLoader "null";
     loadDataDiff := loadDataDiff_spec demoRunLoader "null";
     createRouteData := createRouteData_spec;
     createRouteDataResults := fun results => demoSummary <$> results;
     createRouteManifest := fun matches => match_route <$> matches;
     createRouteParams := fun matches =>
       (fun m => (route_id (match_route m), match_params m)) <$> matches;
     jsesc := fun context => String.concat "," (partial_matchedRouteIds context);
     stringifyDataResults := fun results => "[" +:+ String.concat "," results +:+ "]";
     stringifyPatchPayload := fun payload =>
       String.concat "," (fst <$> map_to_list (build payload));
     otherRequests := fun cell => cell |}.

(** The state right after [createRequestHandler()], and the initialization
    of generation [g]. *)
Definition demoState (nodeEnv : option string) : ServerState (P := demoPlatform) :=
  (createRequestHandler (C := demo nodeEnv) None).1.

Definition demoInit (nodeEnv : option string) (g : nat) : RemixServerInit (P := demoPlatform) :=
  resolved (C := demo nodeEnv) {| generation := g; root := None |}.

(** A store with the manifest of the application at location 1. *)
Definition demoStore : gmap loc (gmap string (option string)) :=
  {[ 1%positive := demoManifest ]}.

(** * Properties of the manifest slicer *)

Section ManifestFacts.
Context {Entry : Type} `{Inherited Entry}.
Implicit Types (manifest memo : gmap string (option Entry)) (entryNames : list string).

Lemma setProperty_lookup memo (e : string) (v : option Entry) (k : string) :
  setProperty memo e v !! k
  = if decide (k = e /\ e <> "__proto__") then Some v else memo !! k.
Proof.
  unfold setProperty. case_bool_decide as Hproto.
  - rewrite decide_False; [done | tauto].
  - destruct (decide (k = e)) as [->|Hne].
    + rewrite lookup_insert_eq, decide_True; done.
    + rewrite lookup_insert_ne by done. rewrite decide_False; [done | tauto].
Qed.

Lemma reduce_lookup manifest entryNames memo (k : string) :
  foldl (fun memo entryName => setProperty memo entryName (getProperty manifest entryName))
        memo entryNames !! k
  = if decide (k ∈ entryNames /\ k <> "__proto__")
    then Some (getProperty manifest k) else memo !! k.
Proof.
  revert memo. induction entryNames as [|e entryNames IH]; intros memo; cbn [foldl].
  - rewrite decide_False; [done|]. intros [Hin _]. by apply not_elem_of_nil in Hin.
  - rewrite IH, setProperty_lookup.
    destruct (decide (k ∈ entryNames /\ k <> "__proto__")) as [[Hin Hk]|Hnin].
    + rewrite decide_True; [done|]. split; [by apply elem_of_cons; right | done].
    + destruct (decide (k = e /\ e <> "__proto__")) as [[-> He]|Hne].
      * rewrite decide_True; [done|]. split; [by apply elem_of_cons; left | done].
      * rewrite decide_False; [done|]. rewrite elem_of_cons.
        intros [[->|Hin] Hk]; tauto.
Qed.

Lemma getPartialManifest_lookup manifest entryNames (k : string) :
  getPartialManifest manifest entryNames !! k
  = if decide (k ∈ entryNames /\ k <> "__proto__")
    then Some (getProperty manifest k) else None.
Proof. unfold getPartialManifest. rewrite reduce_lookup. by rewrite lookup_empty. Qed.

(** The own keys of the slice: the entry names but [__proto__]. *)
Lemma getPartialManifest_dom manifest entryNames :
  dom (getPartialManifest manifest entryNames)
  = list_to_set entryNames ∖ {["__proto__"]}.
Proof.
  apply set_eq. intros k.
  rewrite elem_of_dom, getPartialManifest_lookup, elem_of_difference,
    elem_of_list_to_set, elem_of_singleton.
  destruct (decide (k ∈ entryNames /\ k <> "__proto__")) as [Hin|Hnin].
  - split; [done | by eauto].
  - split; [by intros [? ?] | done].
Qed.

(** C8 (as amended).  For entry names none of which is a name of
    [Object.prototype], the slice has exactly the entry names as keys; a
    name the manifest binds keeps the very value it is bound to; a name the
    manifest does not bind is a key of the slice all the same, bound to
    [undefined]. *)
Theorem getPartialManifest_exact_slice manifest entryNames :
  Forall (fun k => k ∉ objectPrototypeNames) entryNames ->
  dom (getPartialManifest manifest entryNames) = list_to_set entryNames
  /\ (forall k v, k ∈ entryNames -> manifest !! k = Some v ->
        getPartialManifest manifest entryNames !! k = Some v)
  /\ (forall k, k ∈ entryNames -> manifest !! k = None ->
        getPartialManifest manifest entryNames !! k = Some None).
Proof.
  intros Hsafe. rewrite Forall_forall in Hsafe.
  assert (Hproto : forall k, k ∈ entryNames -> k <> "__proto__").
  { intros k Hin ->. apply (Hsafe _ Hin). apply list_elem_of_In.
    do 11 right. left. reflexivity. }
  split; [|split].
  - rewrite getPartialManifest_dom. apply set_eq. intros k.
    rewrite elem_of_difference, elem_of_list_to_set, elem_of_singleton.
    split; [tauto|]. intros Hin. split; [done | by apply Hproto].
  - intros k v Hin Hk.
    rewrite getPartialManifest_lookup, decide_True by (split; [done | by apply Hproto]).
    unfold getProperty. by rewrite Hk.
  - intros k Hin Hk.
    rewrite getPartialManifest_lookup, decide_True by (split; [done | by apply Hproto]).
    unfold getProperty, inheritedProperty. rewrite Hk.
    by rewrite bool_decide_eq_false_2 by (by apply Hsafe).
Qed.

(** One run of the [reduce] on the store: the fresh object ends up with the
    slice of the manifest object, and no other object changes. *)
Lemma reduce_store (manifest memo : loc) (o : gmap string (option Entry)) entryNames :
  manifest <> memo ->
  forall (σ : gmap loc (gmap string (option Entry))) acc,
    σ !! manifest = Some o ->
    σ !! memo = Some acc ->
    let σ' := foldl (fun σ' entryName =>
                       writeProperty memo entryName
                         (readProperty σ' manifest entryName) σ')
                    σ entryNames in
    σ' !! memo
    = Some (foldl (fun memo entryName =>
                     setProperty memo entryName (getProperty o entryName))
                  acc entryNames)
    /\ forall l, l <> memo -> σ' !! l = σ !! l.
Proof.
  intros Hne. induction entryNames as [|e entryNames IH]; intros σ acc Hm Hmemo; cbn [foldl].
  - by split.
  - assert (Hread : readProperty σ manifest e = getProperty o e).
    { unfold readProperty. by rewrite Hm. }
    rewrite Hread. unfold writeProperty at 2 4.
    destruct (IH (alter (fun o' => setProperty o' e (getProperty o e)) memo σ)
                 (setProperty acc e (getProperty o e))) as [IHmemo IHframe].
    + by rewrite lookup_alter_ne.
    + by rewrite lookup_alter_eq, Hmemo.
    + split; [exact IHmemo|].
      intros l Hl. rewrite IHframe by done. by rewrite lookup_alter_ne.
Qed.

Lemma getPartialManifest_store_spec (σ : gmap loc (gmap string (option Entry)))
    (manifest : loc) (o : gmap string (option Entry)) entryNames :
  σ !! manifest = Some o ->
  let run := getPartialManifest_store manifest entryNames σ in
  (run.1 ∉ dom σ)
  /\ run.2 !! run.1 = Some (getPartialManifest o entryNames)
  /\ forall l, l <> run.1 -> run.2 !! l = σ !! l.
Proof.
  intros Hm. unfold getPartialManifest_store. cbn [fst snd].
  set (memo := fresh (dom σ)).
  assert (Hfresh : memo ∉ dom σ) by apply is_fresh.
  assert (Hne : manifest <> memo).
  { intros ->. apply Hfresh. apply elem_of_dom. by eexists. }
  destruct (reduce_store manifest memo o entryNames Hne (<[memo := ∅]> σ) ∅)
    as [Hmemo Hframe].
  - by rewrite lookup_insert_ne.
  - by rewrite lookup_insert_eq.
  - split; [done|]. split; [exact Hmemo|].
    intros l Hl. rewrite Hframe by done. by rewrite lookup_insert_ne.
Qed.

(** C9.  Two runs of the slicer on the same manifest and entry names return
    two distinct objects with the same content; the second run leaves the
    result of the first alone, and neither run changes any object that was
    there before, the source manifest included. *)
Theorem getPartialManifest_repeatable (σ : gmap loc (gmap string (option Entry)))
    (manifest : loc) (o : gmap string (option Entry)) entryNames :
  σ !! manifest = Some o ->
  let run1 := getPartialManifest_store manifest entryNames σ in
  let run2 := getPartialManifest_store manifest entryNames run1.2 in
  run1.2 !! run1.1 = Some (getPartialManifest o entryNames)
  /\ run2.2 !! run2.1 = run1.2 !! run1.1
  /\ run1.1 <> run2.1
  /\ run2.2 !! run1.1 = run1.2 !! run1.1
  /\ run1.2 !! manifest = Some o
  /\ run2.2 !! manifest = Some o
  /\ forall l, l ∈ dom σ -> run1.2 !! l = σ !! l /\ run2.2 !! l = σ !! l.
Proof.
  intros Hm run1 run2.
  destruct (getPartialManifest_store_spec σ manifest o entryNames Hm)
    as (Hfresh1 & Hout1 & Hframe1).
  fold run1 in Hfresh1, Hout1, Hframe1.
  assert (Hm1 : run1.2 !! manifest = Some o).
  { rewrite Hframe1; [done|].
    intros Heq. apply Hfresh1. rewrite <- Heq. apply elem_of_dom. by eexists. }
  destruct (getPartialManifest_store_spec run1.2 manifest o entryNames Hm1)
    as (Hfresh2 & Hout2 & Hframe2).
  fold run2 in Hfresh2, Hout2, Hframe2.
  clearbody run2. clearbody run1.
  assert (Hdistinct : run1.1 <> run2.1).
  { intros Heq. apply Hfresh2. rewrite <- Heq. apply elem_of_dom. by eexists. }
  assert (Hold : forall l, l ∈ dom σ -> l <> run1.1 /\ l <> run2.1).
  { intros l Hl. split.
    - intros ->. by apply Hfresh1.
    - intros ->. apply Hfresh2. apply elem_of_dom.
      apply elem_of_dom in Hl as [x Hx]. exists x. rewrite Hframe1; [done|].
      intros Heq. apply Hfresh1. rewrite <- Heq. apply elem_of_dom. by eexists. }
  repeat split.
  - exact Hout1.
  - by rewrite Hout2, Hout1.
  - exact Hdistinct.
  - by apply Hframe2.
  - exact Hm1.
  - rewrite Hframe2; [exact Hm1|].
    intros ->. apply Hfresh2. apply elem_of_dom. by eexists.
  - apply Hframe1. by apply Hold.
  - rewrite Hframe2 by (by apply Hold). apply Hframe1. by apply Hold.
Qed.

End ManifestFacts.

(** * Properties of the handlers *)

Section ServerFacts.
Context {P : Platform} {C : Collaborators P}.

(** ** Running the monad *)

Lemma trace_resumed (s : ServerState) : trace (resumed s) = trace s.
Proof. unfold resumed. by destruct (otherRequests _). Qed.

Lemma yields_ret {A} (a : A) s : yields (ret a) s a [].
Proof. exists s. split; [done | by rewrite app_nil_r]. Qed.

Lemma yields_bind {A B} (c : M A) (k : A -> M B) s a b events1 events2 :
  yields c s a events1 ->
  (forall s', yields (k a) s' b events2) ->
  yields (bind c k) s b (events1 ++ events2).
Proof.
  intros (s1 & Hc & Ht1) Hk. destruct (Hk s1) as (s2 & Hk2 & Ht2).
  exists s2. unfold bind. rewrite Hc. split; [done|].
  by rewrite Ht2, Ht1, app_assoc.
Qed.

Lemma yields_events {A} (c : M A) s a events events' :
  yields c s a events -> events = events' -> yields c s a events'.
Proof. by intros ? <-. Qed.

Lemma yields_emit e s : yields (emit e) s tt [e].
Proof. by eexists. Qed.

Lemma yields_emitAll events s : yields (emitAll events) s tt events.
Proof. by eexists. Qed.

Lemma yields_suspend s : yields suspend s tt [].
Proof. eexists. split; [done|]. by rewrite trace_resumed, app_nil_r. Qed.

Lemma yields_callMatchRoutes tree path s :
  yields (callMatchRoutes tree path) s (matchRoutes tree path) [EvMatchRoutes path].
Proof.
  unfold callMatchRoutes.
  eapply yields_events; [eapply yields_bind; [apply yields_emit | intros; apply yields_ret] |].
  done.
Qed.

Lemma yields_awaitLoadData config matches location context s :
  yields (awaitLoadData config matches location context) s
         (loadData config matches location context).2
         (EvLoadData matches
            :: (EvInvokeLoader <$> (loadData config matches location context).1)).
Proof.
  unfold awaitLoadData. destruct (loadData _ _ _ _) as [invoked results]. cbn [fst snd].
  eapply yields_events.
  - eapply yields_bind; [apply yields_emit | intros].
    eapply yields_bind; [apply yields_emitAll | intros].
    eapply yields_bind; [apply yields_suspend | intros]. apply yields_ret.
  - cbn. by rewrite app_nil_r.
Qed.

Lemma yields_awaitLoadDataDiff config matches fromMatches location context s :
  yields (awaitLoadDataDiff config matches fromMatches location context) s
         (loadDataDiff config matches fromMatches location context).2
         (EvLoadDataDiff matches fromMatches
            :: (EvInvokeLoader
                  <$> (loadDataDiff config matches fromMatches location context).1)).
Proof.
  unfold awaitLoadDataDiff. destruct (loadDataDiff _ _ _ _ _) as [invoked results].
  cbn [fst snd].
  eapply yields_events.
  - eapply yields_bind; [apply yields_emit | intros].
    eapply yields_bind; [apply yields_emitAll | intros].
    eapply yields_bind; [apply yields_suspend | intros]. apply yields_ret.
  - cbn. by rewrite app_nil_r.
Qed.

Lemma yields_renderHtml init req statusCode matches loaderResults s :
  let entryNames := "__entry_browser__" :: ((fun m => route_id (match_route m)) <$> matches) in
  let entryContext :=
    createEntryContext init matches loaderResults
      (getPartialManifest (browserManifest init) entryNames) in
  yields (renderHtml init req statusCode matches loaderResults) s
         (render (serverEntryModule init) req statusCode entryContext)
         [EvGetPartialManifest entryNames; EvRender statusCode entryContext].
Proof.
  intros entryNames entryContext. unfold renderHtml, callGetPartialManifest, callRender.
  eapply yields_events.
  - eapply yields_bind.
    + eapply yields_bind; [apply yields_emit | intros; apply yields_ret].
    + intros. eapply yields_bind; [apply yields_emit | intros; apply yields_ret].
  - done.
Qed.

(** ** The dispatcher *)

Lemma startsWith_spec (s searchString : string) :
  Js.startsWith s searchString = true <-> exists rest, s = searchString +:+ rest.
Proof.
  revert s. induction searchString as [|a p IH]; intros s; simpl.
  - split; [intros _; exists s; reflexivity | reflexivity].
  - destruct s as [|b s']; simpl.
    + split; [discriminate | intros [rest Hrest]; discriminate].
    + rewrite andb_true_iff, IH, Ascii.eqb_eq. split.
      * intros [-> [rest ->]]. exists rest. reflexivity.
      * intros [rest Hrest]. injection Hrest as -> ->.
        split; [reflexivity | exists rest; reflexivity].
Qed.

Lemma dispatch_kind init req context :
  dispatch init req context
  = match requestKind req with
    | DataFetch => handleDataRequest init req context
    | ManifestPatch => handlePatchRequest init req
    | HtmlNavigation => handleHtmlRequest init req context
    end.
Proof.
  unfold dispatch, requestKind.
  by destruct (Js.startsWith (url req) "/__remix_data"),
              (Js.startsWith (url req) "/__remix_patch").
Qed.

(** The two reserved prefixes exclude each other, so a URL under
    [/__remix_patch] is a manifest-patch request. *)
Lemma requestKind_patch req :
  Js.startsWith (url req) "/__remix_patch" = true -> requestKind req = ManifestPatch.
Proof.
  intros Hpatch. unfold requestKind. rewrite Hpatch.
  apply startsWith_spec in Hpatch as [rest ->]. reflexivity.
Qed.

(** What the handler does before it dispatches: in production it awaits
    the cached promise; in development it awaits it, purges, starts the
    next initialization and awaits that one. *)
Lemma requestHandler_production remixRoot req context s :
  development = false ->
  requestHandler remixRoot req context s
  = dispatch (resolved (initPromise s)) req context
             (logged [EvAwaitInit (initPromise s)] (resumed s)).
Proof. intros Hdev. unfold requestHandler. rewrite Hdev. reflexivity. Qed.

Lemma requestHandler_development remixRoot req context s :
  development = true ->
  let awaited := resolved (initPromise s) in
  let started := startedBy remixRoot s in
  let s1 :=
    logged [EvAwaitInit (initPromise s);
            EvPurgeRequireCache (rootDirectory (config awaited))] (resumed s) in
  let s2 := {| initPromise := started;
               promisesCreated := S (promisesCreated s1);
               trace := trace s1 ++ [EvInitializeServer started] |} in
  requestHandler remixRoot req context s
  = dispatch (resolved started) req context (logged [EvAwaitInit started] (resumed s2)).
Proof.
  intros Hdev. unfold requestHandler. rewrite Hdev. cbn.
  unfold bind, getInitPromise, awaitInit, purgeRequireCache, initializeServer,
    setInitPromise, bind, suspend, emit, ret, startedBy, logged. cbn.
  by rewrite <- !app_assoc.
Qed.

(** Before it dispatches, the handler only awaits, purges and starts
    initializations. *)
Lemma requestHandler_yields remixRoot req context s :
  exists init before,
    Forall (fun e => isInitEvent e = true) before
    /\ forall response events,
         (forall s', yields (dispatch init req context) s' response events) ->
         yields (requestHandler remixRoot req context) s response (before ++ events).
Proof.
  destruct development eqn:Hdev.
  - pose proof (requestHandler_development remixRoot req context s Hdev) as Hrun.
    cbv zeta in Hrun.
    exists (resolved (startedBy remixRoot s)),
      [EvAwaitInit (initPromise s);
       EvPurgeRequireCache (rootDirectory (config (resolved (initPromise s))));
       EvInitializeServer (startedBy remixRoot s);
       EvAwaitInit (startedBy remixRoot s)].
    split.
    + by repeat constructor.
    + intros response events Hdispatch.
      edestruct Hdispatch as (s' & Hs' & Htrace).
      exists s'. rewrite Hrun. split; [exact Hs'|].
      rewrite Htrace. cbn. rewrite !trace_resumed. cbn.
      rewrite ?trace_resumed. by rewrite <- !app_assoc.
  - exists (resolved (initPromise s)), [EvAwaitInit (initPromise s)]. split.
    + by repeat constructor.
    + intros response events Hdispatch.
      destruct (Hdispatch (logged [EvAwaitInit (initPromise s)] (resumed s)))
        as (s' & Hs' & Htrace).
      exists s'. rewrite requestHandler_production by done. split; [exact Hs'|].
      rewrite Htrace. cbn. rewrite trace_resumed. by rewrite <- !app_assoc.
Qed.

(** C1 (as amended).  In development mode the handler awaits the cached
    initialization, purges the require cache for the root directory of that
    initialization, starts a fresh initialization and assigns its promise
    to the cache: in the state [assigned] the cached promise is the started
    one.  From there it awaits the cached promise, that is the started one,
    and dispatches the request with the initialization it started itself,
    whatever other requests did to the cache while it was suspended. *)
Theorem development_serves_started_initialization remixRoot req context s :
  development = true ->
  let cached := initPromise s in
  let started := startedBy remixRoot s in
  exists assigned,
    initPromise assigned = started
    /\ promisesCreated assigned = S (promisesCreated (resumed s))
    /\ trace assigned
       = trace s ++ [EvAwaitInit cached;
                     EvPurgeRequireCache (rootDirectory (config (resolved cached)));
                     EvInitializeServer started]
    /\ requestHandler remixRoot req context s
       = dispatch (resolved started) req context
                  (logged [EvAwaitInit started] (resumed assigned)).
Proof.
  intros Hdev cached started.
  pose proof (requestHandler_development remixRoot req context s Hdev) as Hrun.
  cbv zeta in Hrun. eexists. split; [|split; [|split; [|exact Hrun]]].
  - reflexivity.
  - reflexivity.
  - cbn. rewrite trace_resumed. by rewrite <- !app_assoc.
Qed.

(** ** The HTML handler *)

Lemma findRedirect_first (before after : list LoaderResult) location httpStatus :
  Forall (fun r => isRedirect r = false) before ->
  findRedirect (before ++ LoaderResultRedirect location httpStatus :: after)
  = Some (location, httpStatus).
Proof.
  induction 1 as [|r before Hr _ IH]; [done|].
  by destruct r; [exact IH | discriminate Hr | exact IH | exact IH].
Qed.

Lemma findRedirect_none (results : list LoaderResult) :
  Forall (fun r => isRedirect r = false) results -> findRedirect results = None.
Proof.
  induction 1 as [|r results Hr _ IH]; [done|].
  by destruct r; [exact IH | discriminate Hr | exact IH | exact IH].
Qed.

Lemma findError_first (before after : list LoaderResult) error httpStatus :
  Forall (fun r => isError r = false) before ->
  findError (before ++ LoaderResultError error httpStatus :: after)
  = Some (error, httpStatus).
Proof.
  induction 1 as [|r before Hr _ IH]; [done|].
  by destruct r; [exact IH | exact IH | discriminate Hr | exact IH].
Qed.

(** What the HTML handler does once the loaders have answered with an
    error and without a redirect. *)
Lemma handleHtmlRequest_error init req context s matches invoked before error httpStatus
    after :
  matchRoutes (routes (config init)) (url req) = Some matches ->
  loadData (config init) matches (createLocation (url req) None "default") context
  = (invoked, before ++ LoaderResultError error httpStatus :: after) ->
  Forall (fun r => isRedirect r = false) (before ++ after) ->
  Forall (fun r => isError r = false) before ->
  let location := createLocation (url req) None "default" in
  let results := before ++ LoaderResultError error httpStatus :: after in
  let entryContext :=
    createEntryContext init
      [syntheticMatch (pathname location) "routes/500" "routes/500.js"] results
      (getPartialManifest (browserManifest init) ["__entry_browser__"; "routes/500"]) in
  yields (handleHtmlRequest init req context) s
         (render (serverEntryModule init) req httpStatus entryContext)
         ([EvMatchRoutes (url req); EvLoadData matches]
            ++ (EvInvokeLoader <$> invoked)
            ++ [EvGetPartialManifest ["__entry_browser__"; "routes/500"];
                EvRender httpStatus entryContext]).
Proof.
  intros Hmatch Hload Hredirect Herror location results entryContext.
  unfold handleHtmlRequest.
  eapply yields_events.
  - eapply yields_bind; [apply yields_callMatchRoutes | intros s1].
    rewrite Hmatch.
    eapply yields_bind; [apply yields_awaitLoadData | intros s2].
    rewrite Hload. cbn [fst snd].
    rewrite findRedirect_none.
    2:{ apply Forall_app in Hredirect as [Hb Ha]. apply Forall_app. split; [done|].
        by constructor. }
    rewrite findError_first by done.
    apply (yields_renderHtml init req httpStatus
             [syntheticMatch (pathname location) "routes/500" "routes/500.js"] results).
  - by rewrite Hload.
Qed.

(** C2.  When the loader results of an HTML request contain a redirect, the
    response carries the status and the location of the first one, with the
    body [Redirecting to <location>]; the manifest is not sliced and the
    render hook is not called. *)
Theorem html_redirect_short_circuit init req context s matches invoked before location
    httpStatus after :
  requestKind req = HtmlNavigation ->
  matchRoutes (routes (config init)) (url req) = Some matches ->
  loadData (config init) matches (createLocation (url req) None "default") context
  = (invoked, before ++ LoaderResultRedirect location httpStatus :: after) ->
  Forall (fun r => isRedirect r = false) before ->
  exists events,
    yields (dispatch init req context) s
           {| body := "Redirecting to " +:+ location;
              status := Some httpStatus;
              headers := [("Location", location)] |}
           events
    /\ Forall (fun e => isGetPartialManifest e = false /\ isRender e = false) events.
Proof.
  intros Hkind Hmatch Hload Hfirst.
  rewrite dispatch_kind, Hkind. unfold handleHtmlRequest.
  eexists. split.
  - eapply yields_bind; [apply yields_callMatchRoutes | intros s1].
    rewrite Hmatch.
    eapply yields_bind; [apply yields_awaitLoadData | intros s2].
    rewrite Hload. cbn [fst snd].
    rewrite findRedirect_first by done.
    apply yields_ret.
  - rewrite Hload. cbn [fst snd].
    apply Forall_app. split; [by repeat constructor|].
    apply Forall_app. split; [|by constructor].
    constructor; [done|]. apply Forall_fmap. by apply Forall_true.
Qed.

(** C3.  When the loader results of an HTML request contain no redirect but
    an error, the render hook is called with the status of the first error
    and with an entry context built from the single [routes/500] match,
    whether or not a status-code change is among the results. *)
Theorem html_error_takes_priority init req context s matches invoked before error
    httpStatus after :
  requestKind req = HtmlNavigation ->
  matchRoutes (routes (config init)) (url req) = Some matches ->
  loadData (config init) matches (createLocation (url req) None "default") context
  = (invoked, before ++ LoaderResultError error httpStatus :: after) ->
  Forall (fun r => isRedirect r = false) (before ++ after) ->
  Forall (fun r => isError r = false) before ->
  let location := createLocation (url req) None "default" in
  let matches500 := [syntheticMatch (pathname location) "routes/500" "routes/500.js"] in
  exists entryContext events,
    yields (dispatch init req context) s
           (render (serverEntryModule init) req httpStatus entryContext)
           (events ++ [EvRender httpStatus entryContext])
    /\ entry_matchedRouteIds entryContext = ["routes/500"]
    /\ entry_routeManifest entryContext = createRouteManifest matches500
    /\ entry_routeParams entryContext = createRouteParams matches500.
Proof.
  intros Hkind Hmatch Hload Hredirect Herror location matches500.
  pose proof (handleHtmlRequest_error init req context s matches invoked before error
                httpStatus after Hmatch Hload Hredirect Herror) as Hrun.
  cbv zeta in Hrun.
  eexists _, ([EvMatchRoutes (url req); EvLoadData matches]
                ++ (EvInvokeLoader <$> invoked)
                ++ [EvGetPartialManifest ["__entry_browser__"; "routes/500"]]).
  rewrite dispatch_kind, Hkind. split.
  - eapply yields_events; [exact Hrun|]. by rewrite <- !app_assoc.
  - done.
Qed.

(** C4 (as amended).  When a loader of an HTML request returns an error and
    none a redirect, the real matches are discarded: the matched route ids,
    the route manifest, the route params and the sliced manifest of the
    entry context come from the single [routes/500] match.  The loader
    results are kept: the route data of the
    entry context handed to the render hook is [createRouteData] of the
    complete result list, the results of sibling routes included. *)
Theorem html_error_keeps_loader_results init req context s matches invoked before error
    httpStatus after :
  requestKind req = HtmlNavigation ->
  matchRoutes (routes (config init)) (url req) = Some matches ->
  loadData (config init) matches (createLocation (url req) None "default") context
  = (invoked, before ++ LoaderResultError error httpStatus :: after) ->
  Forall (fun r => isRedirect r = false) (before ++ after) ->
  Forall (fun r => isError r = false) before ->
  exists entryContext events,
    yields (dispatch init req context) s
           (render (serverEntryModule init) req httpStatus entryContext)
           (events ++ [EvRender httpStatus entryContext])
    /\ entry_matchedRouteIds entryContext = ["routes/500"]
    /\ entry_routeManifest entryContext
       = createRouteManifest
           [syntheticMatch (pathname (createLocation (url req) None "default"))
              "routes/500" "routes/500.js"]
    /\ entry_routeParams entryContext
       = createRouteParams
           [syntheticMatch (pathname (createLocation (url req) None "default"))
              "routes/500" "routes/500.js"]
    /\ entry_browserManifest entryContext
       = getPartialManifest (browserManifest init) ["__entry_browser__"; "routes/500"]
    /\ entry_routeData entryContext
       = createRouteData (before ++ LoaderResultError error httpStatus :: after).
Proof.
  intros Hkind Hmatch Hload Hredirect Herror.
  pose proof (handleHtmlRequest_error init req context s matches invoked before error
                httpStatus after Hmatch Hload Hredirect Herror) as Hrun.
  cbv zeta in Hrun.
  eexists _, ([EvMatchRoutes (url req); EvLoadData matches]
                ++ (EvInvokeLoader <$> invoked)
                ++ [EvGetPartialManifest ["__entry_browser__"; "routes/500"]]).
  rewrite dispatch_kind, Hkind. split.
  - eapply yields_events; [exact Hrun|]. by rewrite <- !app_assoc.
  - done.
Qed.

(** C5.  When the URL of an HTML request matches no route, no loader runs:
    the handler slices the manifest for the single [routes/404] match and
    calls the render hook with status 404 and an entry context built from
    that match and the empty result list. *)
Theorem html_no_match_renders_404 init req context s :
  requestKind req = HtmlNavigation ->
  matchRoutes (routes (config init)) (url req) = None ->
  let location := createLocation (url req) None "default" in
  let matches404 := [syntheticMatch (pathname location) "routes/404" "routes/404.js"] in
  let entryContext :=
    createEntryContext init matches404 []
      (getPartialManifest (browserManifest init) ["__entry_browser__"; "routes/404"]) in
  let events := [EvMatchRoutes (url req);
                 EvGetPartialManifest ["__entry_browser__"; "routes/404"];
                 EvRender 404 entryContext] in
  yields (dispatch init req context) s
         (render (serverEntryModule init) req 404 entryContext)
         events
  /\ Forall (fun e => isLoaderEvent e = false) events
  /\ entry_matchedRouteIds entryContext = ["routes/404"]
  /\ entry_routeData entryContext = createRouteData [].
Proof.
  intros Hkind Hmatch location matches404 entryContext events.
  split; [|by repeat constructor].
  rewrite dispatch_kind, Hkind. unfold handleHtmlRequest.
  eapply yields_events.
  - eapply yields_bind; [apply yields_callMatchRoutes | intros s1].
    rewrite Hmatch. apply (yields_renderHtml init req 404 matches404 []).
  - done.
Qed.

(** ** The data-fetch and manifest-patch handlers *)

Lemma dispatch_missing_path init req context s :
  requestKind req = DataFetch \/ requestKind req = ManifestPatch ->
  searchParamsGet (search (createLocation (url req) None "default")) "path" = None ->
  yields (dispatch init req context) s
         {| body := missingPathBody;
            status := Some 403;
            headers := [("Content-Type", "application/json")] |}
         [].
Proof.
  intros Hkind Hpath. rewrite dispatch_kind.
  destruct Hkind as [-> | ->].
  - unfold handleDataRequest. rewrite Hpath. exact (yields_ret _ s).
  - unfold handlePatchRequest. rewrite Hpath. exact (yields_ret _ s).
Qed.

(** C6.  A request to the data-fetch or to the manifest-patch endpoint
    whose query has no [path] is answered with status 403, content type
    [application/json] and the body [{"error":"Missing ?path"}], and
    [matchRoutes] is never called. *)
Theorem missing_path_is_403 remixRoot req context s :
  requestKind req = DataFetch \/ requestKind req = ManifestPatch ->
  searchParamsGet (search (createLocation (url req) None "default")) "path" = None ->
  exists events,
    yields (requestHandler remixRoot req context) s
           {| body := missingPathBody;
              status := Some 403;
              headers := [("Content-Type", "application/json")] |}
           events
    /\ Forall (fun e => isMatchRoutes e = false) events.
Proof.
  intros Hkind Hpath.
  destruct (requestHandler_yields remixRoot req context s) as (init & pre & Hpre & Hrun).
  exists (pre ++ []). split.
  - apply Hrun. intros s'. by apply dispatch_missing_path.
  - rewrite app_nil_r. eapply Forall_impl; [exact Hpre|].
    intros e He. by destruct e.
Qed.

(** C7 (as amended).  A request to the manifest-patch endpoint whose [path]
    is a non-empty string that matches no route is answered with status
    404, content type [text/plain] and the body
    [No matches found for <path>].  The handler builds the response from
    that text and the status alone; that such a response is [text/plain]
    is what the specification says of the response class. *)
Theorem patch_no_match_is_404 init req context s path :
  requestKind req = ManifestPatch ->
  searchParamsGet (search (createLocation (url req) None "default")) "path" = Some path ->
  path <> EmptyString ->
  matchRoutes (routes (config init)) path = None ->
  let response := {| body := "No matches found for " +:+ path;
                     status := Some 404;
                     headers := [] |} in
  yields (dispatch init req context) s response [EvMatchRoutes path]
  /\ responseStatus response = 404
  /\ responseContentType response = "text/plain".
Proof.
  intros Hkind Hpath Hnonempty Hmatch response.
  split; [|done].
  rewrite dispatch_kind, Hkind. unfold handlePatchRequest. rewrite Hpath.
  destruct path as [|c rest]; [done|].
  eapply yields_events.
  - eapply yields_bind; [apply yields_callMatchRoutes | intros s1].
    rewrite Hmatch. apply yields_ret.
  - done.
Qed.

(** Against an empty previous match list the diff strategy is the full
    load: every loader is invoked and no route is left unchanged. *)
Lemma loadDataDiff_spec_nil runLoader nullData config matches location context :
  loadDataDiff_spec runLoader nullData config matches [] location context
  = (mjoin (invocationsOf <$> matches),
     Some <$> (loadRoute runLoader nullData location context <$> matches)).
Proof.
  unfold loadDataDiff_spec. f_equal.
  - f_equal. rewrite <- imap_const. by apply imap_ext.
  - rewrite <- list_fmap_compose, <- imap_const. by apply imap_ext.
Qed.

Lemma invocationsOf_elem (matches : list RouteMatch) m loader :
  m ∈ matches ->
  route_loader (match_route m) = Some loader ->
  (route_id (match_route m), loader) ∈ mjoin (invocationsOf <$> matches).
Proof.
  intros Hin Hloader. apply list_elem_of_join.
  exists (invocationsOf m). split.
  - unfold invocationsOf. rewrite Hloader. apply list_elem_of_singleton. done.
  - by apply list_elem_of_fmap_2.
Qed.

(** C10 (as amended).  A data-fetch request whose [from] is a non-empty
    string that matches no route is not refused: the diff strategy runs
    against the empty previous match list, so the loader of every route
    that [path] matches is invoked and every route gets a fresh result. *)
Theorem data_from_miss_reloads_all init req context s path from matches
    (runLoader : string -> Location -> gmap string string -> AppLoadContext -> LoaderResult)
    (nullData : LoaderData) :
  requestKind req = DataFetch ->
  searchParamsGet (search (createLocation (url req) None "default")) "path" = Some path ->
  path <> EmptyString ->
  searchParamsGet (search (createLocation (url req) None "default")) "from" = Some from ->
  from <> EmptyString ->
  matchRoutes (routes (config init)) path = Some matches ->
  matchRoutes (routes (config init)) from = None ->
  (forall config matches fromMatches location context,
      loadDataDiff config matches fromMatches location context
      = loadDataDiff_spec runLoader nullData config matches fromMatches location context) ->
  let location := createLocation (url req) None "default" in
  let results := Some <$> (loadRoute runLoader nullData location context <$> matches) in
  let events := [EvMatchRoutes path; EvMatchRoutes from; EvLoadDataDiff matches []]
                  ++ (EvInvokeLoader <$> mjoin (invocationsOf <$> matches)) in
  yields (dispatch init req context) s
         {| body := stringifyDataResults (createRouteDataResults results);
            status := None;
            headers := [("Content-Type", "application/json")] |}
         events
  /\ forall m loader,
       m ∈ matches ->
       route_loader (match_route m) = Some loader ->
       EvInvokeLoader (route_id (match_route m), loader) ∈ events.
Proof.
  intros Hkind Hpath Hpath_ne Hfrom Hfrom_ne Hmatch Hmiss Hdiff location results events.
  split.
  - rewrite dispatch_kind, Hkind. unfold handleDataRequest. rewrite Hpath, Hfrom.
    destruct path as [|c rest]; [done|]. destruct from as [|c' rest']; [done|].
    eapply yields_events.
    + eapply yields_bind; [apply yields_callMatchRoutes | intros s1].
      rewrite Hmatch.
      eapply yields_bind.
      * eapply yields_bind; [apply yields_callMatchRoutes | intros s2].
        rewrite Hmiss. cbn [default]. apply yields_awaitLoadDataDiff.
      * intros s3. rewrite Hdiff, loadDataDiff_spec_nil. cbn [fst snd].
        apply yields_ret.
    + rewrite Hdiff, loadDataDiff_spec_nil. cbn [fst snd].
      subst events. cbn. by rewrite app_nil_r.
  - intros m loader Hin Hloader. subst events.
    apply elem_of_app. right. apply list_elem_of_fmap_2.
    by apply invocationsOf_elem.
Qed.

End ServerFacts.

(** * The properties on the small application *)

Lemma development_serves_started_initialization_witness :
  let s := demoState (Some "development") in
  let started := {| generation := 1; root := None |} in
  exists assigned,
    initPromise assigned = started
    /\ promisesCreated assigned = 2%nat
    /\ trace assigned
       = trace s ++ [EvAwaitInit (initPromise s);
                     EvPurgeRequireCache "/app";
                     EvInitializeServer started]
    /\ requestHandler (C := demo (Some "development")) None "/gists" tt s
       = dispatch (C := demo (Some "development"))
                  (demoInit (Some "development") 1) "/gists" tt
                  (logged [EvAwaitInit started] (resumed (C := demo (Some "development"))
                                                         assigned)).
Proof.
  apply (development_serves_started_initialization
           (C := demo (Some "development")) None "/gists" tt
           (demoState (Some "development"))).
  reflexivity.
Defined.

(** C1, as stated, fails: in development mode the request for [/gists] is
    rendered by the build of generation 1, which the request started
    itself, and not by the build of generation 0, which it awaited before
    the purge. *)
Lemma development_serves_awaited_snapshot_counterexample :
  let E := demo (Some "development") in
  let s := demoState (Some "development") in
  development (C := E) = true
  /\ (requestHandler (C := E) None "/gists" tt s).1
     = {| body := "build 1: routes/gists";
          status := Some 200;
          headers := [("Content-Type", "text/html")] |}
  /\ (forall s', (dispatch (C := E) (resolved (C := E) (initPromise s)) "/gists" tt s').1
                = {| body := "build 0: routes/gists";
                     status := Some 200;
                     headers := [("Content-Type", "text/html")] |})
  /\ ~ exists s', requestHandler (C := E) None "/gists" tt s
                  = dispatch (C := E) (resolved (C := E) (initPromise s)) "/gists" tt s'.
Proof.
  intros E s.
  assert (Hold : forall s',
             (dispatch (C := E) (resolved (C := E) (initPromise s)) "/gists" tt s').1
             = {| body := "build 0: routes/gists";
                  status := Some 200;
                  headers := [("Content-Type", "text/html")] |}).
  { intros s'. reflexivity. }
  assert (Hnew : (requestHandler (C := E) None "/gists" tt s).1
                 = {| body := "build 1: routes/gists";
                      status := Some 200;
                      headers := [("Content-Type", "text/html")] |}).
  { reflexivity. }
  split; [reflexivity|]. split; [exact Hnew|]. split; [exact Hold|].
  intros [s' Heq]. rewrite Heq, Hold in Hnew. discriminate Hnew.
Qed.

Lemma html_redirect_short_circuit_witness :
  exists events,
    yields
           (dispatch (C := demo None) (demoInit None 0) "/gists/private" tt)
           (demoState None)
           {| body := "Redirecting to /login";
              status := Some 302;
              headers := [("Location", "/login")] |}
           events
    /\ Forall (fun e => isGetPartialManifest e = false /\ isRender e = false) events.
Proof.
  apply (html_redirect_short_circuit (C := demo None)
           (demoInit None 0) "/gists/private" tt (demoState None)
           [demoMatch (demoRoute "/gists" (Some "loaders/gists.js"));
            demoMatch (demoRoute "/gists/private" (Some "loaders/private.js"))]
           [("routes/gists", "loaders/gists.js");
            ("routes/gists/private", "loaders/private.js")]
           [LoaderResultSuccess (P := demoPlatform) "data of loaders/gists.js"]
           "/login" 302 []).
  - reflexivity.
  - reflexivity.
  - reflexivity.
  - repeat constructor.
Defined.

Lemma html_error_takes_priority_witness :
  let matches500 := [syntheticMatch "/admin/broken" "routes/500" "routes/500.js"] in
  exists entryContext events,
    yields
           (dispatch (C := demo None) (demoInit None 0) "/admin/broken" tt)
           (demoState None)
           (render (serverEntryModule (demoInit None 0)) "/admin/broken" 500 entryContext)
           (events ++ [EvRender 500 entryContext])
    /\ entry_matchedRouteIds entryContext = ["routes/500"]
    /\ entry_routeManifest entryContext = createRouteManifest (Collaborators := demo None) matches500
    /\ entry_routeParams entryContext = createRouteParams (Collaborators := demo None) matches500.
Proof.
  apply (html_error_takes_priority (C := demo None)
           (demoInit None 0) "/admin/broken" tt (demoState None)
           [demoMatch (demoRoute "/admin" (Some "loaders/admin.js"));
            demoMatch (demoRoute "/admin/broken" (Some "loaders/broken.js"))]
           [("routes/admin", "loaders/admin.js");
            ("routes/admin/broken", "loaders/broken.js")]
           [LoaderResultChangeStatusCode (P := demoPlatform) 201]
           "boom" 500 []).
  - reflexivity.
  - reflexivity.
  - reflexivity.
  - repeat constructor.
  - repeat constructor.
Defined.

Lemma html_error_keeps_loader_results_witness :
  exists entryContext events,
    yields
           (dispatch (C := demo None) (demoInit None 0) "/gists/broken" tt)
           (demoState None)
           (render (serverEntryModule (demoInit None 0)) "/gists/broken" 500 entryContext)
           (events ++ [EvRender 500 entryContext])
    /\ entry_matchedRouteIds entryContext = ["routes/500"]
    /\ entry_routeManifest entryContext
       = createRouteManifest (Collaborators := demo None)
           [syntheticMatch "/gists/broken" "routes/500" "routes/500.js"]
    /\ entry_routeParams entryContext
       = createRouteParams (Collaborators := demo None)
           [syntheticMatch "/gists/broken" "routes/500" "routes/500.js"]
    /\ entry_browserManifest entryContext
       = getPartialManifest demoManifest ["__entry_browser__"; "routes/500"]
    /\ entry_routeData entryContext
       = createRouteData (Collaborators := demo None)
           [LoaderResultSuccess (P := demoPlatform) "data of loaders/gists.js";
            LoaderResultError (P := demoPlatform) "boom" 500].
Proof.
  apply (html_error_keeps_loader_results (C := demo None)
           (demoInit None 0) "/gists/broken" tt (demoState None)
           [demoMatch (demoRoute "/gists" (Some "loaders/gists.js"));
            demoMatch (demoRoute "/gists/broken" (Some "loaders/broken.js"))]
           [("routes/gists", "loaders/gists.js");
            ("routes/gists/broken", "loaders/broken.js")]
           [LoaderResultSuccess (P := demoPlatform) "data of loaders/gists.js"]
           "boom" 500 []).
  - reflexivity.
  - reflexivity.
  - reflexivity.
  - repeat constructor.
  - repeat constructor.
Defined.

(** C4, as stated, fails: for [/gists/broken] the loader of [/gists]
    succeeds and the loader of [/gists/broken] fails; the entry context the
    render hook is called with still holds the payload of [/gists]. *)
Lemma html_error_drops_sibling_data_counterexample :
  let E := demo None in
  let init := demoInit None 0 in
  let matches := [demoMatch (demoRoute "/gists" (Some "loaders/gists.js"));
                  demoMatch (demoRoute "/gists/broken" (Some "loaders/broken.js"))] in
  let run := requestHandler (C := E) None "/gists/broken" tt (demoState None) in
  matchRoutes (Collaborators := E) (routes (config init)) "/gists/broken" = Some matches
  /\ (loadData (Collaborators := E) (config init) matches
               (createLocation (C := E) "/gists/broken" None "default") tt).2
     = [LoaderResultSuccess (P := demoPlatform) "data of loaders/gists.js";
        LoaderResultError (P := demoPlatform) "boom" 500]
  /\ exists entryContext,
       last (trace run.2) = Some (EvRender 500 entryContext)
       /\ entry_matchedRouteIds entryContext = ["routes/500"]
       /\ Some "data of loaders/gists.js" ∈ (entry_routeData entryContext : list (option string)).
Proof.
  intros E init matches run.
  split; [reflexivity|]. split; [reflexivity|].
  eexists. split; [reflexivity|]. split; [reflexivity|].
  apply list_elem_of_here.
Qed.

Lemma html_no_match_renders_404_witness :
  let init := demoInit None 0 in
  let entryContext :=
    createEntryContext (C := demo None) init
      [syntheticMatch "/nope" "routes/404" "routes/404.js"] []
      (getPartialManifest demoManifest ["__entry_browser__"; "routes/404"]) in
  let events := [EvMatchRoutes "/nope";
                 EvGetPartialManifest ["__entry_browser__"; "routes/404"];
                 EvRender 404 entryContext] in
  yields (dispatch (C := demo None) init "/nope" tt) (demoState None)
         (render (serverEntryModule init) "/nope" 404 entryContext)
         events
  /\ Forall (fun e => isLoaderEvent e = false) events
  /\ entry_matchedRouteIds entryContext = ["routes/404"]
  /\ entry_routeData entryContext = createRouteData (Collaborators := demo None) [].
Proof.
  apply (html_no_match_renders_404 (C := demo None)
           (demoInit None 0) "/nope" tt (demoState None)).
  - reflexivity.
  - reflexivity.
Defined.

Lemma missing_path_is_403_witness :
  exists events,
    yields (requestHandler (C := demo (Some "development")) None
                           "/__remix_patch?from=/gists/123" tt)
           (demoState (Some "development"))
           {| body := missingPathBody;
              status := Some 403;
              headers := [("Content-Type", "application/json")] |}
           events
    /\ Forall (fun e => isMatchRoutes e = false) events.
Proof.
  apply (missing_path_is_403 (C := demo (Some "development")) None
           "/__remix_patch?from=/gists/123" tt (demoState (Some "development"))).
  - right. reflexivity.
  - reflexivity.
Defined.

Lemma patch_no_match_is_404_witness :
  let response := {| body := "No matches found for /zzz";
                     status := Some 404;
                     headers := [] |} in
  yields (dispatch (C := demo None) (demoInit None 0) "/__remix_patch?path=/zzz" tt)
         (demoState None) response [EvMatchRoutes "/zzz"]
  /\ responseStatus response = 404
  /\ responseContentType response = "text/plain".
Proof.
  apply (patch_no_match_is_404 (C := demo None)
           (demoInit None 0) "/__remix_patch?path=/zzz" tt (demoState None) "/zzz").
  - reflexivity.
  - reflexivity.
  - discriminate.
  - reflexivity.
Defined.

(** C7, as stated, fails: in [/__remix_patch?path=] the parameter [path] is
    there and, being empty, matches no route; the request is answered with
    status 403 and content type [application/json], and [matchRoutes] is
    not called. *)
Lemma patch_empty_path_is_403_counterexample :
  let E := demo None in
  let init := demoInit None 0 in
  let request := "/__remix_patch?path=" in
  let run := dispatch (C := E) init request tt (demoState None) in
  searchParamsGet (Collaborators := E)
    (search (createLocation (C := E) request None "default")) "path" = Some EmptyString
  /\ matchRoutes (Collaborators := E) (routes (config init)) EmptyString = None
  /\ run.1 = {| body := missingPathBody;
                status := Some 403;
                headers := [("Content-Type", "application/json")] |}
  /\ responseStatus run.1 <> 404
  /\ responseContentType run.1 <> "text/plain"
  /\ trace run.2 = trace (demoState None).
Proof.
  intros E init request run.
  split; [reflexivity|]. split; [reflexivity|]. split; [reflexivity|].
  split; [discriminate|]. split; [discriminate|]. reflexivity.
Qed.

Lemma data_from_miss_reloads_all_witness :
  let matches := [demoMatch (demoRoute "/gists" (Some "loaders/gists.js"));
                  demoMatch (demoRoute "/gists/123" (Some "loaders/gist.js"))] in
  let events := [EvMatchRoutes "/gists/123"; EvMatchRoutes "/zzz";
                 EvLoadDataDiff matches [];
                 EvInvokeLoader ("routes/gists", "loaders/gists.js");
                 EvInvokeLoader ("routes/gists/123", "loaders/gist.js")] in
  yields (dispatch (C := demo None) (demoInit None 0)
                   "/__remix_data?path=/gists/123&from=/zzz" tt)
         (demoState None)
         {| body := "[data of loaders/gists.js,data of loaders/gist.js]";
            status := None;
            headers := [("Content-Type", "application/json")] |}
         events
  /\ forall m loader,
       m ∈ matches ->
       route_loader (match_route m) = Some loader ->
       EvInvokeLoader (P := demoPlatform) (route_id (match_route m), loader) ∈ events.
Proof.
  apply (data_from_miss_reloads_all (C := demo None)
           (demoInit None 0) "/__remix_data?path=/gists/123&from=/zzz" tt (demoState None)
           "/gists/123" "/zzz"
           [demoMatch (demoRoute "/gists" (Some "loaders/gists.js"));
            demoMatch (demoRoute "/gists/123" (Some "loaders/gist.js"))]
           demoRunLoader "null").
  - reflexivity.
  - reflexivity.
  - discriminate.
  - reflexivity.
  - discriminate.
  - reflexivity.
  - reflexivity.
  - intros. reflexivity.
Defined.

(** C10, as stated, fails: with [from=] the parameter is present, the empty
    string matches no route, and the handler runs the full load, not the
    diff strategy. *)
Lemma data_empty_from_runs_diff_counterexample :
  let E := demo None in
  let init := demoInit None 0 in
  let request := "/__remix_data?path=/gists/123&from=" in
  let matches := [demoMatch (demoRoute "/gists" (Some "loaders/gists.js"));
                  demoMatch (demoRoute "/gists/123" (Some "loaders/gist.js"))] in
  let run := dispatch (C := E) init request tt (demoState None) in
  searchParamsGet (Collaborators := E)
    (search (createLocation (C := E) request None "default")) "from" = Some EmptyString
  /\ matchRoutes (Collaborators := E) (routes (config init)) EmptyString = None
  /\ trace run.2
     = trace (demoState None)
         ++ [EvMatchRoutes "/gists/123";
             EvLoadData matches;
             EvInvokeLoader ("routes/gists", "loaders/gists.js");
             EvInvokeLoader ("routes/gists/123", "loaders/gist.js")]
  /\ existsb isLoadDataDiff (trace run.2) = false.
Proof.
  intros E init request matches run.
  split; [reflexivity|]. split; [reflexivity|]. split; reflexivity.
Qed.

Lemma getPartialManifest_repeatable_witness :
  let entryNames := ["__entry_browser__"; "routes/gists"; "routes/404"] in
  let run1 := getPartialManifest_store 1%positive entryNames demoStore in
  let run2 := getPartialManifest_store 1%positive entryNames run1.2 in
  run1.2 !! run1.1 = Some (getPartialManifest demoManifest entryNames)
  /\ run2.2 !! run2.1 = run1.2 !! run1.1
  /\ run1.1 <> run2.1
  /\ run2.2 !! run1.1 = run1.2 !! run1.1
  /\ run1.2 !! 1%positive = Some demoManifest
  /\ run2.2 !! 1%positive = Some demoManifest
  /\ forall l, l ∈ dom demoStore -> run1.2 !! l = demoStore !! l /\ run2.2 !! l = demoStore !! l.
Proof.
  apply (getPartialManifest_repeatable demoStore 1%positive demoManifest
           ["__entry_browser__"; "routes/gists"; "routes/404"]).
  reflexivity.
Defined.

Lemma getPartialManifest_exact_slice_witness :
  let entryNames := ["__entry_browser__"; "routes/gists"; "routes/404"] in
  dom (getPartialManifest demoManifest entryNames) = list_to_set entryNames
  /\ (forall k v, k ∈ entryNames -> demoManifest !! k = Some v ->
        getPartialManifest demoManifest entryNames !! k = Some v)
  /\ (forall k, k ∈ entryNames -> demoManifest !! k = None ->
        getPartialManifest demoManifest entryNames !! k = Some None).
Proof.
  apply (getPartialManifest_exact_slice demoManifest
           ["__entry_browser__"; "routes/gists"; "routes/404"]).
  apply (bool_decide_unpack _). vm_compute. exact I.
Defined.

(** C8, as stated, fails on the names of [Object.prototype].  For the entry
    name [__proto__] the slice has no key at all; for [constructor], which
    the manifest does not have, the slice has the key, bound not to
    [undefined] but to the function every object inherits. *)
Lemma getPartialManifest_prototype_names_counterexample :
  getPartialManifest demoManifest ["__proto__"] = ∅
  /\ dom (getPartialManifest demoManifest ["__proto__"])
     <> (list_to_set ["__proto__"] : gset string)
  /\ demoManifest !! "constructor" = None
  /\ getPartialManifest demoManifest ["constructor"] !! "constructor"
     = Some (Some "function constructor")
  /\ getPartialManifest demoManifest ["constructor"] !! "constructor" <> Some None.
Proof.
  split; [reflexivity|]. split.
  - intros Heq.
    assert (Hin : "__proto__" ∈ (list_to_set ["__proto__"] : gset string)).
    { apply elem_of_list_to_set, list_elem_of_here. }
    rewrite <- Heq in Hin. apply elem_of_dom in Hin as [v Hv]. discriminate Hv.
  - split; [reflexivity|]. split; [reflexivity | discriminate].
Qed.

(** * Further properties of the manifest slicer *)

Section ManifestLaws.
Context {Entry : Type} `{Inherited Entry}.
Implicit Types (manifest : gmap string (option Entry)) (entryNames : list string).




(** The slice has at most as many own keys as there are entry names, and
    exactly as many when no name is repeated and [__proto__] is not among
    them, whether or not the manifest knows the names. *)
Theorem getPartialManifest_size manifest entryNames :
  (size (getPartialManifest manifest entryNames) <= length entryNames)%nat
  /\ (NoDup entryNames -> "__proto__" ∉ entryNames ->
      size (getPartialManifest manifest entryNames) = length entryNames).
Proof.
  assert (Hall : (size (list_to_set entryNames : gset string) <= length entryNames)%nat).
  { induction entryNames as [|e entryNames IH]; [done|].
    cbn [list_to_set foldr length].
    rewrite size_union_alt, size_singleton.
    assert (size (list_to_set entryNames ∖ {[e]} : gset string)
            <= size (list_to_set entryNames : gset string))%nat.
    { apply subseteq_size, subseteq_difference_l. done. }
    lia. }
  rewrite <- size_dom, getPartialManifest_dom. split.
  - etrans; [|exact Hall]. apply subseteq_size, subseteq_difference_l. done.
  - intros Hnodup Hproto.
    rewrite difference_disjoint_L.
    + by apply size_list_to_set.
    + apply disjoint_singleton_r. by rewrite elem_of_list_to_set.
Qed.

End ManifestLaws.

(** * Further properties of the handlers *)

Section ServerLaws.
Context {P : Platform} {C : Collaborators P}.

Lemma filter_none {A} (f : A -> bool) (l : list A) :
  Forall (fun x => f x = false) l -> List.filter f l = [].
Proof. induction 1 as [|x l Hx _ IH]; [done|]. cbn. by rewrite Hx. Qed.

Lemma findError_none (results : list LoaderResult) :
  Forall (fun r => isError r = false) results -> findError results = None.
Proof.
  induction 1 as [|r results Hr _ IH]; [done|].
  by destruct r; [exact IH | exact IH | discriminate Hr | exact IH].
Qed.

Lemma findChangeStatusCode_first (before after : list LoaderResult) httpStatus :
  Forall (fun r => isChangeStatusCode r = false) before ->
  findChangeStatusCode (before ++ LoaderResultChangeStatusCode httpStatus :: after)
  = Some httpStatus.
Proof.
  induction 1 as [|r before Hr _ IH]; [done|].
  by destruct r; [exact IH | exact IH | exact IH | discriminate Hr].
Qed.

Lemma findChangeStatusCode_none (results : list LoaderResult) :
  Forall (fun r => isChangeStatusCode r = false) results ->
  findChangeStatusCode results = None.
Proof.
  induction 1 as [|r results Hr _ IH]; [done|].
  by destruct r; [exact IH | exact IH | exact IH | discriminate Hr].
Qed.

(** ** The HTML handler *)

(** When no loader redirects or fails, the first status-code change decides.
    For a status that is a safe integer, the render hook is called with
    that status and with an entry context built from a single match for
    the pseudo-route [routes/<status>], whose component is
    [routes/<status>.js], where [<status>] is the decimal numeral of the
    status; the loader results are kept. *)
Theorem html_status_change_renders_status_route init req context s matches invoked
    before httpStatus after :
  Js.isSafeInteger httpStatus = true ->
  requestKind req = HtmlNavigation ->
  matchRoutes (routes (config init)) (url req) = Some matches ->
  loadData (config init) matches (createLocation (url req) None "default") context
  = (invoked, before ++ LoaderResultChangeStatusCode httpStatus :: after) ->
  Forall (fun r => isRedirect r = false /\ isError r = false) (before ++ after) ->
  Forall (fun r => isChangeStatusCode r = false) before ->
  let location := createLocation (url req) None "default" in
  let results := before ++ LoaderResultChangeStatusCode httpStatus :: after in
  let routeId := "routes/" +:+ pretty httpStatus in
  let statusMatches :=
    [ {| match_pathname := pathname location;
         match_params := ∅;
         match_route := {| route_path := "*";
                           route_id := routeId;
                           route_component := routeId +:+ ".js";
                           route_loader := None |} |} ] in
  let entryContext :=
    createEntryContext init statusMatches results
      (getPartialManifest (browserManifest init) ["__entry_browser__"; routeId]) in
  yields (dispatch init req context) s
         (render (serverEntryModule init) req httpStatus entryContext)
         ([EvMatchRoutes (url req); EvLoadData matches]
            ++ (EvInvokeLoader <$> invoked)
            ++ [EvGetPartialManifest ["__entry_browser__"; routeId];
                EvRender httpStatus entryContext])
  /\ entry_matchedRouteIds entryContext = [routeId]
  /\ entry_routeManifest entryContext = createRouteManifest statusMatches.
Proof.
  intros Hsafe Hkind Hmatch Hload Hclean Hfirst location results routeId statusMatches
    entryContext.
  split; [|done].
  assert (Hredirect : Forall (fun r => isRedirect r = false) results).
  { apply Forall_app in Hclean as [Hb Ha]. apply Forall_app. split.
    - eapply Forall_impl; [exact Hb|]. by intros r [? ?].
    - constructor; [done|]. eapply Forall_impl; [exact Ha|]. by intros r [? ?]. }
  assert (Herror : Forall (fun r => isError r = false) results).
  { apply Forall_app in Hclean as [Hb Ha]. apply Forall_app. split.
    - eapply Forall_impl; [exact Hb|]. by intros r [? ?].
    - constructor; [done|]. eapply Forall_impl; [exact Ha|]. by intros r [? ?]. }
  rewrite dispatch_kind, Hkind. unfold handleHtmlRequest.
  eapply yields_events.
  - eapply yields_bind; [apply yields_callMatchRoutes | intros s1].
    rewrite Hmatch.
    eapply yields_bind; [apply yields_awaitLoadData | intros s2].
    rewrite Hload. cbn [fst snd].
    fold results. rewrite findRedirect_none, findError_none by done.
    unfold results. rewrite findChangeStatusCode_first by done.
    apply (yields_renderHtml init req httpStatus statusMatches results).
  - by rewrite Hload.
Qed.

(** When every loader succeeds, the matches stand: the render hook is
    called with status 200 and with an entry context built from the real
    matches and all their results; the manifest is sliced for the browser
    entry point followed by the ids of the matched routes. *)
Theorem html_success_renders_matches init req context s matches invoked results :
  requestKind req = HtmlNavigation ->
  matchRoutes (routes (config init)) (url req) = Some matches ->
  loadData (config init) matches (createLocation (url req) None "default") context
  = (invoked, results) ->
  Forall (fun r => isRedirect r = false /\ isError r = false
                   /\ isChangeStatusCode r = false) results ->
  let entryNames := "__entry_browser__" :: routeIds matches in
  let entryContext :=
    createEntryContext init matches results
      (getPartialManifest (browserManifest init) entryNames) in
  yields (dispatch init req context) s
         (render (serverEntryModule init) req 200 entryContext)
         ([EvMatchRoutes (url req); EvLoadData matches]
            ++ (EvInvokeLoader <$> invoked)
            ++ [EvGetPartialManifest entryNames; EvRender 200 entryContext])
  /\ entry_matchedRouteIds entryContext = routeIds matches
  /\ entry_routeData entryContext = createRouteData results.
Proof.
  intros Hkind Hmatch Hload Hclean entryNames entryContext.
  split; [|done].
  rewrite dispatch_kind, Hkind. unfold handleHtmlRequest.
  eapply yields_events.
  - eapply yields_bind; [apply yields_callMatchRoutes | intros s1].
    rewrite Hmatch.
    eapply yields_bind; [apply yields_awaitLoadData | intros s2].
    rewrite Hload. cbn [fst snd].
    rewrite findRedirect_none, findError_none, findChangeStatusCode_none
      by (eapply Forall_impl; [exact Hclean|]; by intros r (? & ? & ?)).
    apply (yields_renderHtml init req 200 matches results).
  - by rewrite Hload.
Qed.

(** Every run of the HTML handler ends in one of two ways: a redirect
    response built by the handler, or one call of the render hook after one
    slice of the manifest. *)
Lemma handleHtmlRequest_outcome init req context s :
  exists response events,
    yields (handleHtmlRequest init req context) s response events
    /\ ((exists location httpStatus before,
           response = {| body := "Redirecting to " +:+ location;
                         status := Some httpStatus;
                         headers := [("Location", location)] |}
           /\ events = EvMatchRoutes (url req) :: before
           /\ Forall (fun e => isLoaderEvent e = true) before)
        \/ (exists statusCode matches results before,
              let entryNames := "__entry_browser__" :: routeIds matches in
              let entryContext :=
                createEntryContext init matches results
                  (getPartialManifest (browserManifest init) entryNames) in
              response = render (serverEntryModule init) req statusCode entryContext
              /\ events = EvMatchRoutes (url req) :: before
                            ++ [EvGetPartialManifest entryNames;
                                EvRender statusCode entryContext]
              /\ Forall (fun e => isLoaderEvent e = true) before)).
Proof.
  assert (Hloaded : forall matches,
             Forall (fun e : Event => isLoaderEvent e = true)
                    (EvLoadData matches
                       :: (EvInvokeLoader
                             <$> (loadData (config init) matches
                                    (createLocation (url req) None "default") context).1))).
  { intros matches. constructor; [done|]. apply Forall_fmap. by apply Forall_true. }
  unfold handleHtmlRequest.
  destruct (matchRoutes (routes (config init)) (url req)) as [matches|] eqn:Hmatch.
  - destruct (loadData (config init) matches
                (createLocation (url req) None "default") context)
      as [invoked results] eqn:Hload.
    specialize (Hloaded matches). rewrite Hload in Hloaded. cbn [fst] in Hloaded.
    destruct (findRedirect results) as [[location httpStatus]|] eqn:Hredirect;
      [|destruct (findError results) as [[error errorStatus]|] eqn:Herror;
        [|destruct (findChangeStatusCode results) as [changedStatus|] eqn:Hchange]].
    + eexists _, _. split.
      * eapply yields_bind; [apply yields_callMatchRoutes | intros s1].
        rewrite Hmatch.
        eapply yields_bind; [apply yields_awaitLoadData | intros s2].
        rewrite Hload. cbn [fst snd]. rewrite Hredirect. apply yields_ret.
      * left. rewrite Hload. cbn [fst snd].
        eexists _, _, _. split; [done|]. split; [reflexivity|].
        rewrite app_nil_r. exact Hloaded.
    + eexists _, _. split.
      * eapply yields_bind; [apply yields_callMatchRoutes | intros s1].
        rewrite Hmatch.
        eapply yields_bind; [apply yields_awaitLoadData | intros s2].
        rewrite Hload. cbn [fst snd]. rewrite Hredirect, Herror.
        apply yields_renderHtml.
      * right. rewrite Hload. cbn [fst snd].
        eexists errorStatus, _, results, _. cbv zeta.
        split; [done|]. split; [|exact Hloaded]. done.
    + eexists _, _. split.
      * eapply yields_bind; [apply yields_callMatchRoutes | intros s1].
        rewrite Hmatch.
        eapply yields_bind; [apply yields_awaitLoadData | intros s2].
        rewrite Hload. cbn [fst snd]. rewrite Hredirect, Herror, Hchange.
        apply yields_renderHtml.
      * right. rewrite Hload. cbn [fst snd].
        eexists changedStatus, _, results, _. cbv zeta.
        split; [done|]. split; [|exact Hloaded]. done.
    + eexists _, _. split.
      * eapply yields_bind; [apply yields_callMatchRoutes | intros s1].
        rewrite Hmatch.
        eapply yields_bind; [apply yields_awaitLoadData | intros s2].
        rewrite Hload. cbn [fst snd]. rewrite Hredirect, Herror, Hchange.
        apply yields_renderHtml.
      * right. rewrite Hload. cbn [fst snd].
        eexists 200, matches, results, _. cbv zeta.
        split; [done|]. split; [|exact Hloaded]. done.
  - eexists _, _. split.
    + eapply yields_bind; [apply yields_callMatchRoutes | intros s1].
      rewrite Hmatch. apply yields_renderHtml.
    + right. eexists 404, _, [], []. cbv zeta. split; [done|]. split; [done|].
      constructor.
Qed.

(** An HTML request calls [matchRoutes] exactly once, on the whole URL of
    the request, and the render hook at most once.  Its response is either
    what that one call of the render hook returned, or a response with a
    [Location] header for which the render hook was not called at all. *)
Theorem html_renders_at_most_once init req context s :
  requestKind req = HtmlNavigation ->
  exists response events,
    yields (dispatch init req context) s response events
    /\ List.filter isMatchRoutes events = [EvMatchRoutes (url req)]
    /\ ((exists statusCode entryContext,
           List.filter isRender events = [EvRender statusCode entryContext]
           /\ response = render (serverEntryModule init) req statusCode entryContext)
        \/ (exists location,
              List.filter isRender events = []
              /\ headers response = [("Location", location)])).
Proof.
  intros Hkind. rewrite dispatch_kind, Hkind.
  destruct (handleHtmlRequest_outcome init req context s)
    as (response & events & Hrun & Hcases).
  exists response, events. split; [exact Hrun|].
  destruct Hcases as [(location & httpStatus & before & -> & -> & Hbefore)
                     |(statusCode & matches & results & before & Hcase)].
  - split.
    + cbn. rewrite filter_none; [done|].
      eapply Forall_impl; [exact Hbefore|]. intros e He; by destruct e.
    + right. exists location. split; [|done].
      cbn. apply filter_none.
      eapply Forall_impl; [exact Hbefore|]. intros e He; by destruct e.
  - cbv zeta in Hcase. destruct Hcase as (-> & -> & Hbefore). split.
    + cbn. rewrite List.filter_app, filter_none; [done|].
      eapply Forall_impl; [exact Hbefore|]. intros e He; by destruct e.
    + left. eexists _, _. split; [|done].
      cbn. rewrite List.filter_app, filter_none; [done|].
      eapply Forall_impl; [exact Hbefore|]. intros e He; by destruct e.
Qed.


(** ** The data-fetch handler *)

(** A data-fetch request whose [path] is a non-empty string that matches no
    route is answered with status 404, content type [application/json] and
    the body [{"error":"No routes matched"}]; [from] is not looked at and
    no loader runs. *)
Theorem data_no_match_is_404 init req context s path :
  requestKind req = DataFetch ->
  searchParamsGet (search (createLocation (url req) None "default")) "path" = Some path ->
  path <> EmptyString ->
  matchRoutes (routes (config init)) path = None ->
  yields (dispatch init req context) s
         {| body := noRoutesMatchedBody;
            status := Some 404;
            headers := [("Content-Type", "application/json")] |}
         [EvMatchRoutes path].
Proof.
  intros Hkind Hpath Hnonempty Hmatch.
  rewrite dispatch_kind, Hkind. unfold handleDataRequest. rewrite Hpath.
  destruct path as [|c rest]; [done|].
  eapply yields_events.
  - eapply yields_bind; [apply yields_callMatchRoutes | intros s1].
    rewrite Hmatch. exact (yields_ret _ s1).
  - done.
Qed.

(** A data-fetch request without [from], or with an empty one, runs the
    full load for the routes [path] matches: [matchRoutes] is called once,
    [loadData] once, and the response carries the results of all routes
    with content type [application/json] and no status of its own. *)
Theorem data_without_from_loads_all init req context s path matches :
  requestKind req = DataFetch ->
  searchParamsGet (search (createLocation (url req) None "default")) "path" = Some path ->
  path <> EmptyString ->
  searchParamsGet (search (createLocation (url req) None "default")) "from" = None
  \/ searchParamsGet (search (createLocation (url req) None "default")) "from"
     = Some EmptyString ->
  matchRoutes (routes (config init)) path = Some matches ->
  let loaded :=
    loadData (config init) matches (createLocation (url req) None "default") context in
  yields (dispatch init req context) s
         {| body := stringifyDataResults (createRouteDataResults (Some <$> loaded.2));
            status := None;
            headers := [("Content-Type", "application/json")] |}
         ([EvMatchRoutes path; EvLoadData matches] ++ (EvInvokeLoader <$> loaded.1)).
Proof.
  intros Hkind Hpath Hnonempty Hfrom Hmatch loaded.
  rewrite dispatch_kind, Hkind. unfold handleDataRequest. rewrite Hpath.
  destruct path as [|c rest]; [done|].
  eapply yields_events.
  - eapply yields_bind; [apply yields_callMatchRoutes | intros s1].
    rewrite Hmatch.
    eapply yields_bind.
    + destruct Hfrom as [-> | ->].
      * eapply yields_bind; [apply yields_awaitLoadData | intros s2; apply yields_ret].
      * eapply yields_bind; [apply yields_awaitLoadData | intros s2; apply yields_ret].
    + intros s3. apply yields_ret.
  - cbn. by rewrite !app_nil_r.
Qed.

(** A data-fetch request with a non-empty [from] runs the diff strategy:
    [matchRoutes] is called for [path] and then for [from], and
    [loadDataDiff] receives the matches of [path] and the matches of
    [from], or the empty list when [from] matches no route. *)
Theorem data_with_from_runs_diff init req context s path from matches :
  requestKind req = DataFetch ->
  searchParamsGet (search (createLocation (url req) None "default")) "path" = Some path ->
  path <> EmptyString ->
  searchParamsGet (search (createLocation (url req) None "default")) "from" = Some from ->
  from <> EmptyString ->
  matchRoutes (routes (config init)) path = Some matches ->
  let fromMatches := default [] (matchRoutes (routes (config init)) from) in
  let loaded :=
    loadDataDiff (config init) matches fromMatches
                 (createLocation (url req) None "default") context in
  yields (dispatch init req context) s
         {| body := stringifyDataResults (createRouteDataResults loaded.2);
            status := None;
            headers := [("Content-Type", "application/json")] |}
         ([EvMatchRoutes path; EvMatchRoutes from; EvLoadDataDiff matches fromMatches]
            ++ (EvInvokeLoader <$> loaded.1)).
Proof.
  intros Hkind Hpath Hpath_ne Hfrom Hfrom_ne Hmatch fromMatches loaded.
  rewrite dispatch_kind, Hkind. unfold handleDataRequest. rewrite Hpath, Hfrom.
  destruct path as [|c rest]; [done|]. destruct from as [|c' rest']; [done|].
  eapply yields_events.
  - eapply yields_bind; [apply yields_callMatchRoutes | intros s1].
    rewrite Hmatch.
    eapply yields_bind.
    + eapply yields_bind; [apply yields_callMatchRoutes | intros s2].
      apply yields_awaitLoadDataDiff.
    + intros s3. apply yields_ret.
  - cbn. by rewrite !app_nil_r.
Qed.

(** Every run of the data-fetch handler: the response is JSON, with status
    403, 404 or none, and the events after the first are calls of
    [matchRoutes] and of the loaders only. *)
Lemma handleDataRequest_outcome init req context s :
  exists response events,
    yields (handleDataRequest init req context) s response events
    /\ headers response = [("Content-Type", "application/json")]
    /\ (status response = Some 403 \/ status response = Some 404
        \/ status response = None)
    /\ Forall (fun e => isMatchRoutes e = true \/ isLoaderEvent e = true) events.
Proof.
  unfold handleDataRequest.
  destruct (searchParamsGet (search (createLocation (url req) None "default")) "path")
    as [[|c path]|] eqn:Hpath.
  - eexists _, _. split; [apply yields_ret|]. cbn. by eauto.
  - destruct (matchRoutes (routes (config init)) (String c path)) as [matches|] eqn:Hmatch.
    + destruct (searchParamsGet (search (createLocation (url req) None "default")) "from")
        as [[|c' from]|] eqn:Hfrom.
      * eexists _, _. split.
        { eapply yields_bind; [apply yields_callMatchRoutes | intros s1].
          rewrite Hmatch.
          eapply yields_bind; [|intros s3; apply yields_ret].
          eapply yields_bind; [apply yields_awaitLoadData | intros s2; apply yields_ret]. }
        cbn. split; [done|]. split; [by eauto|].
        constructor; [by left|]. constructor; [by right|].
        rewrite !app_nil_r. apply Forall_fmap, Forall_true. by right.
      * eexists _, _. split.
        { eapply yields_bind; [apply yields_callMatchRoutes | intros s1].
          rewrite Hmatch.
          eapply yields_bind; [|intros s3; apply yields_ret].
          eapply yields_bind; [apply yields_callMatchRoutes | intros s2].
          apply yields_awaitLoadDataDiff. }
        cbn. split; [done|]. split; [by eauto|].
        constructor; [by left|]. constructor; [by left|]. constructor; [by right|].
        rewrite !app_nil_r. apply Forall_fmap, Forall_true. by right.
      * eexists _, _. split.
        { eapply yields_bind; [apply yields_callMatchRoutes | intros s1].
          rewrite Hmatch.
          eapply yields_bind; [|intros s3; apply yields_ret].
          eapply yields_bind; [apply yields_awaitLoadData | intros s2; apply yields_ret]. }
        cbn. split; [done|]. split; [by eauto|].
        constructor; [by left|]. constructor; [by right|].
        rewrite !app_nil_r. apply Forall_fmap, Forall_true. by right.
    + eexists _, _. split.
      { eapply yields_bind; [apply yields_callMatchRoutes | intros s1].
        rewrite Hmatch. apply yields_ret. }
      cbn. split; [done|]. split; [by eauto|]. constructor; [by left|]. constructor.
  - eexists _, _. split; [apply yields_ret|]. cbn. by eauto.
Qed.

(** The data-fetch endpoint never turns a loader result into an HTTP
    redirect or a rendered page: whatever the loaders return, the response
    has content type [application/json] as its only header and status 403,
    404 or none; the manifest is not sliced and the render hook is not
    called. *)
Theorem data_response_is_always_json init req context s :
  requestKind req = DataFetch ->
  exists response events,
    yields (dispatch init req context) s response events
    /\ headers response = [("Content-Type", "application/json")]
    /\ (status response = Some 403 \/ status response = Some 404
        \/ status response = None)
    /\ Forall (fun e => isRender e = false /\ isGetPartialManifest e = false) events.
Proof.
  intros Hkind. rewrite dispatch_kind, Hkind.
  destruct (handleDataRequest_outcome init req context s)
    as (response & events & Hrun & Hheaders & Hstatus & Hevents).
  exists response, events. repeat split; try done.
  eapply Forall_impl; [exact Hevents|]. intros e [He|He]; by destruct e.
Qed.

(** ** The manifest-patch handler *)


Lemma handlePatchRequest_outcome init req s :
  exists response events,
    yields (handlePatchRequest init req) s response events
    /\ (status response = Some 403 \/ status response = Some 404
        \/ status response = None)
    /\ (events = [] \/ (exists path, events = [EvMatchRoutes path])
        \/ (exists path entryNames,
              events = [EvMatchRoutes path; EvGetPartialManifest entryNames])).
Proof.
  unfold handlePatchRequest.
  destruct (searchParamsGet (search (createLocation (url req) None "default")) "path")
    as [[|c path]|] eqn:Hpath.
  - eexists _, _. split; [apply yields_ret|]. cbn. by eauto.
  - destruct (matchRoutes (routes (config init)) (String c path)) as [matches|] eqn:Hmatch.
    + eexists _, _. split.
      { eapply yields_bind; [apply yields_callMatchRoutes | intros s1].
        rewrite Hmatch. unfold callGetPartialManifest.
        eapply yields_bind; [|intros s3; apply yields_ret].
        eapply yields_bind; [apply yields_emit | intros s2; apply yields_ret]. }
      cbn. split; [by eauto|]. right. right. by eexists _, _.
    + eexists _, _. split.
      { eapply yields_bind; [apply yields_callMatchRoutes | intros s1].
        rewrite Hmatch. apply yields_ret. }
      cbn. split; [by eauto|]. right. left. by eexists.
  - eexists _, _. split; [apply yields_ret|]. cbn. by eauto.
Qed.

(** The manifest-patch endpoint never runs a loader and never calls the
    render hook; it calls [matchRoutes] at most once and slices the
    manifest at most once. *)
Theorem patch_never_loads init req context s :
  requestKind req = ManifestPatch ->
  exists response events,
    yields (dispatch init req context) s response events
    /\ Forall (fun e => isLoaderEvent e = false /\ isRender e = false) events
    /\ (length (List.filter isMatchRoutes events) <= 1)%nat
    /\ (length (List.filter isGetPartialManifest events) <= 1)%nat.
Proof.
  intros Hkind. rewrite dispatch_kind, Hkind.
  destruct (handlePatchRequest_outcome init req s)
    as (response & events & Hrun & _ & Hevents).
  exists response, events. split; [exact Hrun|].
  destruct Hevents as [-> | [(path & ->) | (path & entryNames & ->)]];
    cbn; repeat split; repeat constructor; lia.
Qed.

(** ** The dispatcher *)

(** The two reserved prefixes exclude each other, so the kind of a request
    is decided by its prefix alone: a URL under [/__remix_data] goes to
    the data-fetch handler, a URL under [/__remix_patch] to the
    manifest-patch handler, and every other URL to the HTML handler. *)
Theorem dispatch_by_prefix init req context :
  (Js.startsWith (url req) "/__remix_data" = true ->
   dispatch init req context = handleDataRequest init req context)
  /\ (Js.startsWith (url req) "/__remix_patch" = true ->
      dispatch init req context = handlePatchRequest init req)
  /\ (Js.startsWith (url req) "/__remix_data" = false ->
      Js.startsWith (url req) "/__remix_patch" = false ->
      dispatch init req context = handleHtmlRequest init req context).
Proof.
  split; [|split].
  - intros Hdata. unfold dispatch. by rewrite Hdata.
  - intros Hpatch. by rewrite dispatch_kind, requestKind_patch.
  - intros Hdata Hpatch. unfold dispatch. by rewrite Hdata, Hpatch.
Qed.

(** No handler awaits, starts or purges an initialization: that is left to
    the code before the dispatch. *)
Lemma dispatch_no_init_events init req context s :
  exists response events,
    yields (dispatch init req context) s response events
    /\ Forall (fun e => isInitEvent e = false) events.
Proof.
  rewrite dispatch_kind. destruct (requestKind req).
  - destruct (handleDataRequest_outcome init req context s)
      as (response & events & Hrun & _ & _ & Hevents).
    exists response, events. split; [exact Hrun|].
    eapply Forall_impl; [exact Hevents|]. intros e [He|He]; by destruct e.
  - destruct (handlePatchRequest_outcome init req s)
      as (response & events & Hrun & _ & Hevents).
    exists response, events. split; [exact Hrun|].
    destruct Hevents as [-> | [(path & ->) | (path & entryNames & ->)]];
      by repeat constructor.
  - destruct (handleHtmlRequest_outcome init req context s)
      as (response & events & Hrun & Hcases).
    exists response, events. split; [exact Hrun|].
    destruct Hcases as [(location & httpStatus & before & _ & -> & Hbefore)
                       |(statusCode & matches & results & before & Hcase)].
    + constructor; [done|]. eapply Forall_impl; [exact Hbefore|].
      intros e He; by destruct e.
    + cbv zeta in Hcase. destruct Hcase as (_ & -> & Hbefore).
      constructor; [done|]. apply Forall_app. split; [|by repeat constructor].
      eapply Forall_impl; [exact Hbefore|]. intros e He; by destruct e.
Qed.

(** In production the handler awaits the cached initialization once and
    serves the request with what it resolves to; it never purges the
    require cache and never starts an initialization. *)
Theorem production_serves_cached_initialization remixRoot req context s :
  development = false ->
  exists s' response events,
    requestHandler remixRoot req context s
    = dispatch (resolved (initPromise s)) req context s'
    /\ yields (requestHandler remixRoot req context) s response
              (EvAwaitInit (initPromise s) :: events)
    /\ Forall (fun e => isInitEvent e = false) events.
Proof.
  intros Hdev.
  pose proof (requestHandler_production remixRoot req context s Hdev) as Hrun.
  destruct (dispatch_no_init_events (resolved (initPromise s)) req context
              (logged [EvAwaitInit (initPromise s)] (resumed s)))
    as (response & events & (s' & Hs' & Htrace) & Hevents).
  eexists _, response, events. split; [exact Hrun|]. split; [|exact Hevents].
  exists s'. rewrite Hrun. split; [exact Hs'|].
  rewrite Htrace. cbn. rewrite trace_resumed. by rewrite <- app_assoc.
Qed.

End ServerLaws.

(** ** The cached initialization when no other request runs *)

Section Quiet.
Context {P : Platform} {C : Collaborators P}.
Hypothesis Hquiet : forall cell, otherRequests cell = cell.

Lemma resumed_quiet s : resumed s = s.
Proof. unfold resumed. rewrite Hquiet. by destruct s. Qed.

(** The three handlers read neither the cached promise nor the count of
    initializations, and write neither. *)
Lemma dispatch_keeps_cache init req context s :
  initPromise (dispatch init req context s).2 = initPromise s
  /\ promisesCreated (dispatch init req context s).2 = promisesCreated s.
Proof.
  unfold dispatch, handleDataRequest, handlePatchRequest, handleHtmlRequest, renderHtml,
    callMatchRoutes, awaitLoadData, awaitLoadDataDiff, callGetPartialManifest,
    callRender, bind, ret, emit, emitAll, suspend.
  repeat (case_match; simplify_eq/=; rewrite ?resumed_quiet); done.
Qed.

End Quiet.

Section CacheLaws.
Context {P : Platform} {C : Collaborators P}.

(** With no other request running, a request in development mode leaves
    the promise it started in the cache and raises the count of
    initializations by one, while a request in production leaves the
    cached promise and the count as they were. *)
Theorem cache_after_request remixRoot req context s :
  (forall cell, otherRequests cell = cell) ->
  let s' := (requestHandler remixRoot req context s).2 in
  (development = true ->
   initPromise s' = {| generation := promisesCreated s; root := remixRoot |}
   /\ promisesCreated s' = S (promisesCreated s))
  /\ (development = false ->
      initPromise s' = initPromise s /\ promisesCreated s' = promisesCreated s).
Proof.
  intros Hquiet s'. subst s'. split; intros Hdev.
  - pose proof (requestHandler_development remixRoot req context s Hdev) as Hrun.
    cbv zeta in Hrun. rewrite Hrun.
    rewrite (proj1 (dispatch_keeps_cache Hquiet _ _ _ _)),
      (proj2 (dispatch_keeps_cache Hquiet _ _ _ _)).
    rewrite !resumed_quiet by done. cbn.
    unfold startedBy. by rewrite resumed_quiet.
  - rewrite requestHandler_production by done.
    rewrite (proj1 (dispatch_keeps_cache Hquiet _ _ _ _)),
      (proj2 (dispatch_keeps_cache Hquiet _ _ _ _)).
    by rewrite resumed_quiet.
Qed.

(** [createRequestHandler(remixRoot)] starts the first initialization at
    once, before any request.  The first request through the handler it
    returns is served by an initialization of [remixRoot]: in production
    by that first one, in development by the one the request starts
    itself. *)
Theorem createRequestHandler_first_request remixRoot req context :
  let first := {| generation := 0; root := remixRoot |} in
  let s0 := (createRequestHandler remixRoot).1 in
  let handler := (createRequestHandler remixRoot).2 in
  trace s0 = [EvInitializeServer first]
  /\ initPromise s0 = first
  /\ exists g s',
       handler req context s0 = dispatch (initializeServerBody g remixRoot) req context s'
       /\ (development = false -> g = 0%nat)
       /\ (development = true -> g = (otherRequests (first, 1%nat)).2).
Proof.
  intros first s0 handler. split; [done|]. split; [done|].
  destruct development eqn:Hdev.
  - pose proof (requestHandler_development remixRoot req context s0 Hdev) as Hrun.
    cbv zeta in Hrun.
    eexists (generation (startedBy remixRoot s0)), _.
    split; [exact Hrun|]. split; [done|]. intros _.
    unfold startedBy, resumed. cbn. by destruct (otherRequests _).
  - eexists 0%nat, _. split; [|done].
    exact (requestHandler_production remixRoot req context s0 Hdev).
Qed.

End CacheLaws.

(** ** The slicer on the store *)

Section StoreLaws.
Context {Entry : Type} `{Inherited Entry}.

(** One run of the slicer allocates exactly one object, at a location that
    was not in use. *)
Theorem getPartialManifest_store_allocates (σ : gmap loc (gmap string (option Entry)))
    (manifest : loc) (o : gmap string (option Entry)) (entryNames : list string) :
  σ !! manifest = Some o ->
  let run := getPartialManifest_store manifest entryNames σ in
  (run.1 ∉ dom σ) /\ dom run.2 = {[run.1]} ∪ dom σ.
Proof.
  intros Hm run.
  destruct (getPartialManifest_store_spec σ manifest o entryNames Hm)
    as (Hfresh & Hout & Hframe).
  fold run in Hfresh, Hout, Hframe. clearbody run.
  split; [exact Hfresh|].
  apply set_eq. intros l. rewrite elem_of_union, elem_of_singleton, !elem_of_dom.
  destruct (decide (l = run.1)) as [->|Hne].
  - rewrite Hout. split; [by left | by eauto].
  - rewrite Hframe by done. split; [by right | by intros [?|?]].
Qed.

End StoreLaws.

(** * The further properties on the small application *)



Lemma getPartialManifest_store_allocates_witness :
  let run := getPartialManifest_store 1%positive ["routes/gists"; "routes/404"] demoStore in
  (run.1 ∉ dom demoStore) /\ dom run.2 = {[run.1]} ∪ dom demoStore.
Proof.
  apply (getPartialManifest_store_allocates demoStore 1%positive demoManifest
           ["routes/gists"; "routes/404"]).
  reflexivity.
Defined.

Lemma html_status_change_renders_status_route_witness :
  let results := [LoaderResultChangeStatusCode (P := demoPlatform) 201] in
  let entryContext :=
    createEntryContext (C := demo None) (demoInit None 0)
      [syntheticMatch "/admin" "routes/201" "routes/201.js"] results
      (getPartialManifest demoManifest ["__entry_browser__"; "routes/201"]) in
  yields (dispatch (C := demo None) (demoInit None 0) "/admin" tt) (demoState None)
         (render (serverEntryModule (demoInit None 0)) "/admin" 201 entryContext)
         [EvMatchRoutes "/admin";
          EvLoadData [demoMatch (demoRoute "/admin" (Some "loaders/admin.js"))];
          EvInvokeLoader ("routes/admin", "loaders/admin.js");
          EvGetPartialManifest ["__entry_browser__"; "routes/201"];
          EvRender 201 entryContext]
  /\ entry_matchedRouteIds entryContext = ["routes/201"]
  /\ entry_routeManifest entryContext
     = createRouteManifest (Collaborators := demo None)
         [syntheticMatch "/admin" "routes/201" "routes/201.js"].
Proof.
  apply (html_status_change_renders_status_route (C := demo None)
           (demoInit None 0) "/admin" tt (demoState None)
           [demoMatch (demoRoute "/admin" (Some "loaders/admin.js"))]
           [("routes/admin", "loaders/admin.js")]
           [] 201 []).
  - reflexivity.
  - reflexivity.
  - reflexivity.
  - reflexivity.
  - constructor.
  - constructor.
Defined.

Lemma html_success_renders_matches_witness :
  let matches := [demoMatch (demoRoute "/gists" (Some "loaders/gists.js"));
                  demoMatch (demoRoute "/gists/123" (Some "loaders/gist.js"))] in
  let results := [LoaderResultSuccess (P := demoPlatform) "data of loaders/gists.js";
                  LoaderResultSuccess (P := demoPlatform) "data of loaders/gist.js"] in
  let entryNames := ["__entry_browser__"; "routes/gists"; "routes/gists/123"] in
  let entryContext :=
    createEntryContext (C := demo None) (demoInit None 0) matches results
      (getPartialManifest demoManifest entryNames) in
  yields (dispatch (C := demo None) (demoInit None 0) "/gists/123" tt) (demoState None)
         (render (serverEntryModule (demoInit None 0)) "/gists/123" 200 entryContext)
         [EvMatchRoutes "/gists/123";
          EvLoadData matches;
          EvInvokeLoader ("routes/gists", "loaders/gists.js");
          EvInvokeLoader ("routes/gists/123", "loaders/gist.js");
          EvGetPartialManifest entryNames;
          EvRender 200 entryContext]
  /\ entry_matchedRouteIds entryContext = ["routes/gists"; "routes/gists/123"]
  /\ entry_routeData entryContext = createRouteData (Collaborators := demo None) results.
Proof.
  apply (html_success_renders_matches (C := demo None)
           (demoInit None 0) "/gists/123" tt (demoState None)
           [demoMatch (demoRoute "/gists" (Some "loaders/gists.js"));
            demoMatch (demoRoute "/gists/123" (Some "loaders/gist.js"))]
           [("routes/gists", "loaders/gists.js");
            ("routes/gists/123", "loaders/gist.js")]
           [LoaderResultSuccess (P := demoPlatform) "data of loaders/gists.js";
            LoaderResultSuccess (P := demoPlatform) "data of loaders/gist.js"]).
  - reflexivity.
  - reflexivity.
  - reflexivity.
  - repeat constructor.
Defined.

Lemma html_renders_at_most_once_witness :
  exists response events,
    yields (dispatch (C := demo None) (demoInit None 0) "/gists/private" tt)
           (demoState None) response events
    /\ List.filter isMatchRoutes events = [EvMatchRoutes "/gists/private"]
    /\ ((exists statusCode entryContext,
           List.filter isRender events = [EvRender statusCode entryContext]
           /\ response = render (serverEntryModule (demoInit None 0)) "/gists/private"
                                statusCode entryContext)
        \/ (exists location,
              List.filter isRender events = []
              /\ headers response = [("Location", location)])).
Proof.
  apply (html_renders_at_most_once (C := demo None)
           (demoInit None 0) "/gists/private" tt (demoState None)).
  reflexivity.
Defined.


Lemma data_no_match_is_404_witness :
  yields (dispatch (C := demo None) (demoInit None 0) "/__remix_data?path=/zzz&from=/gists" tt)
         (demoState None)
         {| body := noRoutesMatchedBody;
            status := Some 404;
            headers := [("Content-Type", "application/json")] |}
         [EvMatchRoutes "/zzz"].
Proof.
  apply (data_no_match_is_404 (C := demo None)
           (demoInit None 0) "/__remix_data?path=/zzz&from=/gists" tt (demoState None)
           "/zzz").
  - reflexivity.
  - reflexivity.
  - discriminate.
  - reflexivity.
Defined.

Lemma data_without_from_loads_all_witness :
  let matches := [demoMatch (demoRoute "/gists" (Some "loaders/gists.js"));
                  demoMatch (demoRoute "/gists/broken" (Some "loaders/broken.js"))] in
  yields (dispatch (C := demo None) (demoInit None 0) "/__remix_data?path=/gists/broken" tt)
         (demoState None)
         {| body := "[data of loaders/gists.js,error boom]";
            status := None;
            headers := [("Content-Type", "application/json")] |}
         [EvMatchRoutes "/gists/broken";
          EvLoadData matches;
          EvInvokeLoader ("routes/gists", "loaders/gists.js");
          EvInvokeLoader ("routes/gists/broken", "loaders/broken.js")].
Proof.
  apply (data_without_from_loads_all (C := demo None)
           (demoInit None 0) "/__remix_data?path=/gists/broken" tt (demoState None)
           "/gists/broken"
           [demoMatch (demoRoute "/gists" (Some "loaders/gists.js"));
            demoMatch (demoRoute "/gists/broken" (Some "loaders/broken.js"))]).
  - reflexivity.
  - reflexivity.
  - discriminate.
  - left. reflexivity.
  - reflexivity.
Defined.

Lemma data_with_from_runs_diff_witness :
  let matches := [demoMatch (demoRoute "/gists" (Some "loaders/gists.js"));
                  demoMatch (demoRoute "/gists/123" (Some "loaders/gist.js"))] in
  let fromMatches := [demoMatch (demoRoute "/gists" (Some "loaders/gists.js"))] in
  yields (dispatch (C := demo None) (demoInit None 0)
                   "/__remix_data?from=/gists&path=/gists/123" tt)
         (demoState None)
         {| body := "[unchanged,data of loaders/gist.js]";
            status := None;
            headers := [("Content-Type", "application/json")] |}
         [EvMatchRoutes "/gists/123";
          EvMatchRoutes "/gists";
          EvLoadDataDiff matches fromMatches;
          EvInvokeLoader ("routes/gists/123", "loaders/gist.js")].
Proof.
  apply (data_with_from_runs_diff (C := demo None)
           (demoInit None 0) "/__remix_data?from=/gists&path=/gists/123" tt
           (demoState None) "/gists/123" "/gists"
           [demoMatch (demoRoute "/gists" (Some "loaders/gists.js"));
            demoMatch (demoRoute "/gists/123" (Some "loaders/gist.js"))]).
  - reflexivity.
  - reflexivity.
  - discriminate.
  - reflexivity.
  - discriminate.
  - reflexivity.
Defined.

Lemma data_response_is_always_json_witness :
  exists response events,
    yields (dispatch (C := demo None) (demoInit None 0)
                     "/__remix_data?path=/gists/private" tt)
           (demoState None) response events
    /\ headers response = [("Content-Type", "application/json")]
    /\ (status response = Some 403 \/ status response = Some 404
        \/ status response = None)
    /\ Forall (fun e => isRender e = false /\ isGetPartialManifest e = false) events.
Proof.
  apply (data_response_is_always_json (C := demo None)
           (demoInit None 0) "/__remix_data?path=/gists/private" tt (demoState None)).
  reflexivity.
Defined.


Lemma patch_never_loads_witness :
  exists response events,
    yields (dispatch (C := demo None) (demoInit None 0) "/__remix_patch?path=/gists/123" tt)
           (demoState None) response events
    /\ Forall (fun e => isLoaderEvent e = false /\ isRender e = false) events
    /\ (length (List.filter isMatchRoutes events) <= 1)%nat
    /\ (length (List.filter isGetPartialManifest events) <= 1)%nat.
Proof.
  apply (patch_never_loads (C := demo None)
           (demoInit None 0) "/__remix_patch?path=/gists/123" tt (demoState None)).
  reflexivity.
Defined.

Lemma production_serves_cached_initialization_witness :
  exists s' response events,
    requestHandler (C := demo None) None "/gists" tt (demoState None)
    = dispatch (C := demo None) (demoInit None 0) "/gists" tt s'
    /\ yields (requestHandler (C := demo None) None "/gists" tt) (demoState None) response
              (EvAwaitInit {| generation := 0; root := None |} :: events)
    /\ Forall (fun e => isInitEvent e = false) events.
Proof.
  apply (production_serves_cached_initialization (C := demo None)
           None "/gists" tt (demoState None)).
  reflexivity.
Defined.

Lemma cache_after_request_witness :
  let s := demoState (Some "development") in
  let s' := (requestHandler (C := demo (Some "development")) None "/gists" tt s).2 in
  (development (C := demo (Some "development")) = true ->
   initPromise s' = {| generation := 1; root := None |}
   /\ promisesCreated s' = 2%nat)
  /\ (development (C := demo (Some "development")) = false ->
      initPromise s' = initPromise s /\ promisesCreated s' = promisesCreated s).
Proof.
  apply (cache_after_request (C := demo (Some "development")) None "/gists" tt
           (demoState (Some "development"))).
  intros cell. reflexivity.
Defined.
